(** * ai-video-sales-coach: the upload-to-result workflow

    A shallow embedding of the two pieces of the front end that carry state
    and failure handling:

    - the API module ([analyzeVideo], [getAnalysisHistory], [getHealthCheck]),
    - the [VideoUpload] component's [onDrop] handler, with the interval
      timer that drives the simulated progress bar, composed with [App],
      which owns the [currentAnalysis] slot.

    Asynchronous functions are written in a small free monad: synchronous
    effects are commands performed on a machine state, [Await] marks the one
    place where a function yields to the event loop (the HTTP request).
    The event loop itself is a step function on machine states, driven by
    the events the browser delivers: a drop, a timer tick, the settlement
    of the outstanding request. *)

From Stdlib Require Import ZArith QArith String Ascii List Bool Lia DecimalString.
From Stdlib Require Import Sorted.
Import ListNotations.

#[local] Set Warnings "-register-all".
Local Open Scope string_scope.
Local Open Scope Z_scope.

(** ** JavaScript values *)

Module Js.

(** JSON-shaped values.  An object keeps its properties in insertion
    order, as a JavaScript object does. *)
Inductive value : Type :=
| Null
| Bool (b : bool)
| Num (q : Q)
| Str (s : string)
| Arr (items : list value)
| Obj (props : list (string * value)).

Fixpoint lookup (k : string) (props : list (string * value)) : option value :=
  match props with
  | [] => None
  | (k', v) :: rest => if String.eqb k k' then Some v else lookup k rest
  end.

(** [o.k]; [undefined] is [None]. *)
Definition get (k : string) (o : value) : option value :=
  match o with
  | Obj props => lookup k props
  | _ => None
  end.

(** [o.k1.k2]. *)
Definition get2 (k1 k2 : string) (o : value) : option value :=
  match get k1 o with
  | Some o' => get k2 o'
  | None => None
  end.

Definition is_num (v : option value) : bool :=
  match v with Some (Num _) => true | _ => false end.

Definition is_arr (v : option value) : bool :=
  match v with Some (Arr _) => true | _ => false end.

Definition is_nonempty_obj (v : option value) : bool :=
  match v with Some (Obj (_ :: _)) => true | _ => false end.

(** Values a [throw] can carry into a [catch] clause.  The first four are
    the ways an axios request rejects. *)
Inductive error : Type :=
| NetworkError
| RequestTimeout (ms : Z)
| BadStatus (status : Z)
| MalformedResponse
| Thrown (msg : string).

(** Completion of a call: normal, or abrupt with a thrown value. *)
Inductive outcome (A : Type) : Type :=
| Ok (a : A)
| Err (e : error).
Arguments Ok {A} a.
Arguments Err {A} e.

(** ** [Number.prototype.toString] and [Date.prototype.toISOString]

    Both are built-ins; they are written out so that the fallback record
    computes.  Time values are integral milliseconds since the epoch. *)

Definition number_toString (n : Z) : string :=
  NilZero.string_of_int (Z.to_int n).

Fixpoint digits (width : nat) (n : Z) (acc : string) : string :=
  match width with
  | O => acc
  | S w =>
      digits w (n / 10)
             (String (ascii_of_nat (48 + Z.to_nat (n mod 10))) acc)
  end.

Definition pad (width : nat) (n : Z) : string := digits width n "".

(** Gregorian date of a day number counted from 1970-01-01. *)
Definition civil_from_days (z : Z) : Z * Z * Z :=
  let z := z + 719468 in
  let era := z / 146097 in
  let doe := z - era * 146097 in
  let yoe := (doe - doe / 1460 + doe / 36524 - doe / 146096) / 365 in
  let doy := doe - (365 * yoe + yoe / 4 - yoe / 100) in
  let mp := (5 * doy + 2) / 153 in
  let d := doy - (153 * mp + 2) / 5 + 1 in
  let m := if mp <? 10 then mp + 3 else mp - 9 in
  let y := yoe + era * 400 + (if m <=? 2 then 1 else 0) in
  (y, m, d).

Definition year_toString (y : Z) : string :=
  if (0 <=? y) && (y <=? 9999) then pad 4 y
  else ((if y <? 0 then "-" else "+") ++ pad 6 (Z.abs y)).

Definition toISOString (t : Z) : string :=
  let day := t / 86400000 in
  let ms := t mod 86400000 in
  let '(y, m, d) := civil_from_days day in
  year_toString y ++ "-" ++ pad 2 m ++ "-" ++ pad 2 d ++ "T"
    ++ pad 2 (ms / 3600000) ++ ":" ++ pad 2 ((ms / 60000) mod 60) ++ ":"
    ++ pad 2 ((ms / 1000) mod 60) ++ "." ++ pad 3 (ms mod 1000) ++ "Z".

End Js.

Import Js.

(** ** Programs and the machine they run on *)

Module Runtime.

(** A browser [File]: the two properties the code reads. *)
Record File : Type := { name : string; type : string }.

Record request : Type := {
  method : string;
  url : string;
  form : list (string * File);
  headers : list (string * string)
}.

Record response : Type := { status : Z; data : value }.

Definition handle : Type := nat.

(** The one function handed to [setInterval]: the arrow function of
    [onDrop].  It closes over its own timer handle. *)
Inductive closure : Type := ProgressTick.

(** Synchronous effects, indexed by the type of what they return. *)
Inductive cmd : Type -> Type :=
| SetUploading (b : bool) : cmd unit
| ReadUploadProgress : cmd Z
| SetUploadProgress (v : Z) : cmd unit
| SetInterval (cb : closure) (delay : Z) : cmd handle
| ClearInterval (h : handle) : cmd unit
| ToastSuccess (msg : string) : cmd unit
| ToastError (msg : string) : cmd unit
| ConsoleError (label : string) (e : error) : cmd unit
| OnAnalysisComplete (r : value) : cmd (outcome unit)
| Navigate (path : string) : cmd unit
| DateNow : cmd Z
| NewDate : cmd Z.

(** A function body.  [Await] is an awaited HTTP request: the function
    yields there and is resumed with the request's outcome. *)
Inductive prog (A : Type) : Type :=
| Ret (a : A)
| Throw (e : error)
| Do {X : Type} (c : cmd X) (k : X -> prog A)
| Await (r : request) (k : outcome response -> prog A).
Arguments Ret {A} a.
Arguments Throw {A} e.
Arguments Do {A X} c k.
Arguments Await {A} r k.

Fixpoint bind {A B : Type} (p : prog A) (f : A -> prog B) : prog B :=
  match p with
  | Ret a => f a
  | Throw e => Throw e
  | Do c k => Do c (fun x => bind (k x) f)
  | Await r k => Await r (fun o => bind (k o) f)
  end.

(** [try { p } catch (e) { h e }] *)
Fixpoint try_catch {A : Type} (p : prog A) (h : error -> prog A) : prog A :=
  match p with
  | Ret a => Ret a
  | Throw e => h e
  | Do c k => Do c (fun x => try_catch (k x) h)
  | Await r k => Await r (fun o => try_catch (k o) h)
  end.

(** [try { p } finally { f }]: [f] runs on both completions; an abrupt
    completion of [f] itself replaces the one of [p]. *)
Fixpoint try_finally {A : Type} (p : prog A) (f : prog unit) : prog A :=
  match p with
  | Ret a => bind f (fun _ => Ret a)
  | Throw e => bind f (fun _ => Throw e)
  | Do c k => Do c (fun x => try_finally (k x) f)
  | Await r k => Await r (fun o => try_finally (k o) f)
  end.

Definition try_catch_finally {A : Type}
    (p : prog A) (h : error -> prog A) (f : prog unit) : prog A :=
  try_finally (try_catch p h) f.

Definition call {X : Type} (c : cmd X) : prog X := Do c Ret.

(** A call that may throw: the command reports the completion, the
    program re-raises it. *)
Definition call_throwing {X : Type} (c : cmd (outcome X)) : prog X :=
  Do c (fun o => match o with Ok x => Ret x | Err e => Throw e end).

(** [await] of an axios request: a rejection is thrown at the await. *)
Definition await (r : request) : prog response :=
  Await r (fun o => match o with Ok x => Ret x | Err e => Throw e end).

Declare Scope prog_scope.
Delimit Scope prog_scope with prog.
Notation "x <- p ;; q" := (bind p (fun x => q))
  (at level 61, p at next level, right associativity) : prog_scope.
Notation "p ;; q" := (bind p (fun _ => q))
  (at level 61, right associativity) : prog_scope.

(** What a run leaves behind, in the order it happened. *)
Inductive severity : Type := Success | Failure.

Inductive effect : Type :=
| UploadingSet (b : bool)
| ProgressSet (v : Z)
| IntervalStarted (h : handle) (delay : Z)
| IntervalCleared (h : handle)
| Toast (s : severity) (msg : string)
| Console (label : string) (e : error)
| Published (r : value)
| Navigated (path : string)
| Requested (r : request)
| Unhandled (e : error).

(** React state of [VideoUpload] and of [App], the browser's timer
    table, the number of clock readings taken so far, and the trace,
    oldest effect first. *)
Record machine : Type := {
  uploading : bool;
  uploadProgress : Z;
  currentAnalysis : option value;
  timers : list (handle * closure);
  next_handle : handle;
  clock_reads : nat;
  trace : list effect
}.

(** What the component is given and what the world answers: the
    [onAnalysisComplete] prop, acting on the slot its owner holds, and
    the successive readings of the system clock in milliseconds. *)
Record env : Type := {
  onAnalysisComplete_prop :
    value -> option value -> outcome unit * option value;
  clock : nat -> Z
}.

End Runtime.

Import Runtime.

Module Machine.

Definition emit (e : effect) (m : machine) : machine :=
  {| uploading := uploading m; uploadProgress := uploadProgress m;
     currentAnalysis := currentAnalysis m; timers := timers m;
     next_handle := next_handle m; clock_reads := clock_reads m;
     trace := trace m ++ [e] |}.

Definition with_uploading (b : bool) (m : machine) : machine :=
  {| uploading := b; uploadProgress := uploadProgress m;
     currentAnalysis := currentAnalysis m; timers := timers m;
     next_handle := next_handle m; clock_reads := clock_reads m;
     trace := trace m |}.

Definition with_uploadProgress (v : Z) (m : machine) : machine :=
  {| uploading := uploading m; uploadProgress := v;
     currentAnalysis := currentAnalysis m; timers := timers m;
     next_handle := next_handle m; clock_reads := clock_reads m;
     trace := trace m |}.

Definition with_currentAnalysis (s : option value) (m : machine) : machine :=
  {| uploading := uploading m; uploadProgress := uploadProgress m;
     currentAnalysis := s; timers := timers m;
     next_handle := next_handle m; clock_reads := clock_reads m;
     trace := trace m |}.

Definition with_timers (ts : list (handle * closure)) (next : handle)
    (m : machine) : machine :=
  {| uploading := uploading m; uploadProgress := uploadProgress m;
     currentAnalysis := currentAnalysis m; timers := ts;
     next_handle := next; clock_reads := clock_reads m;
     trace := trace m |}.

Definition with_clock_reads (n : nat) (m : machine) : machine :=
  {| uploading := uploading m; uploadProgress := uploadProgress m;
     currentAnalysis := currentAnalysis m; timers := timers m;
     next_handle := next_handle m; clock_reads := n;
     trace := trace m |}.

Definition cancel (h : handle) (ts : list (handle * closure))
    : list (handle * closure) :=
  filter (fun t => negb (Nat.eqb (fst t) h)) ts.

Fixpoint timer (h : handle) (ts : list (handle * closure)) : option closure :=
  match ts with
  | [] => None
  | (h', cb) :: rest => if Nat.eqb h h' then Some cb else timer h rest
  end.

Section WithEnv.

Variable w : env.

(** One synchronous effect. *)
Definition perform {X : Type} (c : cmd X) (m : machine) : X * machine :=
  match c in cmd X return X * machine with
  | SetUploading b => (tt, emit (UploadingSet b) (with_uploading b m))
  | ReadUploadProgress => (uploadProgress m, m)
  | SetUploadProgress v =>
      (tt, emit (ProgressSet v) (with_uploadProgress v m))
  | SetInterval cb delay =>
      let h := next_handle m in
      (h, emit (IntervalStarted h delay)
               (with_timers ((h, cb) :: timers m) (S h) m))
  | ClearInterval h =>
      (tt, emit (IntervalCleared h)
                (with_timers (cancel h (timers m)) (next_handle m) m))
  | ToastSuccess msg => (tt, emit (Toast Success msg) m)
  | ToastError msg => (tt, emit (Toast Failure msg) m)
  | ConsoleError label e => (tt, emit (Console label e) m)
  | OnAnalysisComplete r =>
      let (o, slot) := onAnalysisComplete_prop w r (currentAnalysis m) in
      (o, with_currentAnalysis slot (emit (Published r) m))
  | Navigate path => (tt, emit (Navigated path) m)
  | DateNow =>
      (clock w (clock_reads m), with_clock_reads (S (clock_reads m)) m)
  | NewDate =>
      (clock w (clock_reads m), with_clock_reads (S (clock_reads m)) m)
  end.

(** Where a run stands when it hands control back. *)
Inductive stage (A : Type) : Type :=
| Finished (o : outcome A)
| Blocked (r : request) (k : outcome response -> prog A).
Arguments Finished {A} o.
Arguments Blocked {A} r k.

(** Run up to the next await.  The request is sent when the await is
    reached. *)
Fixpoint exec {A : Type} (p : prog A) (m : machine) : stage A * machine :=
  match p with
  | Ret a => (Finished (Ok a), m)
  | Throw e => (Finished (Err e), m)
  | Do c k => let (x, m') := perform c m in exec (k x) m'
  | Await r k => (Blocked r k, emit (Requested r) m)
  end.

(** Run to the end against a server that answers at once: the view of
    a caller that awaits the function and does nothing else. *)
Fixpoint run {A : Type} (server : request -> outcome response)
    (p : prog A) (m : machine) : outcome A * machine :=
  match p with
  | Ret a => (Ok a, m)
  | Throw e => (Err e, m)
  | Do c k => let (x, m') := perform c m in run server (k x) m'
  | Await r k => run server (k (server r)) (emit (Requested r) m)
  end.

End WithEnv.

Arguments Finished {A} o.
Arguments Blocked {A} r k.

End Machine.

Import Machine.

(** ** The API module *)

Module Api.

Local Open Scope prog_scope.

(** [axios.create({ baseURL, timeout: 300000 })]: request URLs are
    relative to the configured base URL. *)
Definition timeout : Z := 300000.

Definition api_post (path : string) (formData : list (string * File))
    (hdrs : list (string * string)) : prog response :=
  await {| method := "POST"; url := path; form := formData;
           headers := hdrs |}.

Definition api_get (path : string) : prog response :=
  await {| method := "GET"; url := path; form := []; headers := [] |}.

Definition console_error (label : string) (e : error) : prog unit :=
  call (ConsoleError label e).

(** The report of the mock record returned for demo purposes. *)
Definition mock_analysis : value :=
  Obj [
    ("overall_score", Num 78%Q);
    ("confidence_level", Num 82%Q);
    ("engagement_score", Num 75%Q);
    ("speech_clarity", Num 80%Q);
    ("body_language", Num 76%Q);
    ("emotions", Obj [
       ("confident", Num 0.65%Q);
       ("nervous", Num 0.15%Q);
       ("enthusiastic", Num 0.75%Q);
       ("professional", Num 0.85%Q) ]);
    ("transcript", Str "Thank you for joining me today. I'm excited to present our new product solution that will revolutionize how your team approaches sales...");
    ("coaching_feedback", Obj [
       ("strengths", Arr [
          Str "Strong opening with clear enthusiasm";
          Str "Good eye contact maintained throughout";
          Str "Professional tone and delivery";
          Str "Clear articulation of key benefits" ]);
       ("improvements", Arr [
          Str "Could reduce filler words ('um', 'uh')";
          Str "Try varying vocal pace for emphasis";
          Str "Consider more dynamic hand gestures";
          Str "Practice smoother transitions between points" ]);
       ("recommendations", Arr [
          Str "Practice the opening 30 seconds to build confidence";
          Str "Record yourself to identify speech patterns";
          Str "Use pause and emphasis techniques";
          Str "Rehearse with a timer to manage pacing" ]) ]);
    ("metrics", Obj [
       ("speech_rate", Num 165%Q);
       ("pause_frequency", Num 12%Q);
       ("filler_words", Num 8%Q);
       ("gesture_frequency", Num 23%Q);
       ("eye_contact_percentage", Num 78%Q) ])
  ].

(** The object literal of the [catch] clause, given the two clock
    readings it takes: [Date.now()] for [id], [new Date()] for
    [created_at]. *)
Definition mock_result (file : File) (now created : Z) : value :=
  Obj [
    ("id", Str (number_toString now));
    ("filename", Str (name file));
    ("analysis", mock_analysis);
    ("created_at", Str (toISOString created))
  ].

Definition analyzeVideo (file : File) : prog value :=
  let formData := [("video", file)] in
  try_catch
    (response <- api_post "/api/v1/videos/analyze" formData
                   [("Content-Type", "multipart/form-data")] ;;
     Ret (data response))
    (fun error =>
       console_error "API Error:" error ;;
       now <- call DateNow ;;
       created <- call NewDate ;;
       Ret (mock_result file now created)).

Definition getAnalysisHistory : prog value :=
  try_catch
    (response <- api_get "/api/v1/videos/history" ;;
     Ret (data response))
    (fun error =>
       console_error "API Error:" error ;;
       Ret (Arr [])).

Definition getHealthCheck : prog value :=
  try_catch
    (response <- api_get "/health" ;;
     Ret (data response))
    (fun error =>
       console_error "Health check failed:" error ;;
       Ret (Obj [("status", Str "unhealthy")])).

End Api.

Import Api.

(** ** The [VideoUpload] component *)

Module VideoUpload.

Local Open Scope prog_scope.

Definition setUploading (b : bool) : prog unit := call (SetUploading b).
Definition setUploadProgress (v : Z) : prog unit :=
  call (SetUploadProgress v).
Definition setInterval (cb : closure) (delay : Z) : prog handle :=
  call (SetInterval cb delay).
Definition clearInterval (h : handle) : prog unit := call (ClearInterval h).
Definition toast_success (msg : string) : prog unit :=
  call (ToastSuccess msg).
Definition toast_error (msg : string) : prog unit := call (ToastError msg).
Definition onAnalysisComplete (r : value) : prog unit :=
  call_throwing (OnAnalysisComplete r).
Definition navigate (path : string) : prog unit := call (Navigate path).

(** The interval callback.  It passes [setUploadProgress] an updater;
    React applies an updater to the latest state, so the callback reads
    the current value and writes the updater's result. *)
Definition progressTick (progressInterval : handle) : prog unit :=
  prev <- call ReadUploadProgress ;;
  if 90 <=? prev then
    clearInterval progressInterval ;;
    setUploadProgress 90
  else
    setUploadProgress (prev + 10).

Definition apply_closure (cb : closure) (h : handle) : prog unit :=
  match cb with
  | ProgressTick => progressTick h
  end.

Definition onDrop (acceptedFiles : list File) : prog unit :=
  match nth_error acceptedFiles 0 with
  | None => Ret tt
  | Some file =>
      if negb (String.prefix "video/" (type file)) then
        toast_error "Please upload a video file"
      else
        setUploading true ;;
        setUploadProgress 0 ;;
        try_catch_finally
          (progressInterval <- setInterval ProgressTick 200 ;;
           result <- analyzeVideo file ;;
           clearInterval progressInterval ;;
           setUploadProgress 100 ;;
           toast_success "Video analyzed successfully!" ;;
           onAnalysisComplete result ;;
           navigate "/results")
          (fun error =>
             console_error "Upload failed:" error ;;
             toast_error "Analysis failed. Please try again.")
          (setUploading false ;;
           setUploadProgress 0)
  end.

End VideoUpload.

Import VideoUpload.

(** ** The event loop *)

Module EventLoop.

(** What the browser delivers: a drop on the drop zone, a firing of the
    interval with a given handle, the settlement of the outstanding
    request. *)
Inductive event : Type :=
| Dropped (acceptedFiles : list File)
| Tick (h : handle)
| Settled (o : outcome response).

(** The machine, and the handler suspended at its await, if any. *)
Record loop : Type := {
  store : machine;
  waiting : option (outcome response -> prog unit)
}.

Section WithEnv.

Variable w : env.

(** Run a task until it finishes or awaits.  A task that ends by
    throwing is an unhandled rejection. *)
Definition dispatch (p : prog unit) (l : loop) : loop :=
  match exec w p (store l) with
  | (Finished (Ok _), m) => {| store := m; waiting := waiting l |}
  | (Finished (Err e), m) =>
      {| store := emit (Unhandled e) m; waiting := waiting l |}
  | (Blocked _ k, m) => {| store := m; waiting := Some k |}
  end.

(** The drop zone is created with [disabled: uploading].  The loop takes
    the component as mounted once and as rendered after every event, so
    that the drop zone calls [onDrop] only while the flag is off; [onDrop]
    itself has no such guard.  A tick runs the callback of an interval that
    is still in the timer table. *)
Definition step (l : loop) (ev : event) : loop :=
  match ev with
  | Dropped acceptedFiles =>
      if uploading (store l) then l
      else dispatch (onDrop acceptedFiles) l
  | Tick h =>
      match timer h (timers (store l)) with
      | Some cb => dispatch (apply_closure cb h) l
      | None => l
      end
  | Settled o =>
      match waiting l with
      | Some k => dispatch (k o) {| store := store l; waiting := None |}
      | None => l
      end
  end.

Definition run_events (l : loop) (evs : list event) : loop :=
  fold_left step evs l.

End WithEnv.

End EventLoop.

Import EventLoop.

(** ** [App]: the owner of the [currentAnalysis] slot *)

Module App.

(** [<VideoUpload onAnalysisComplete={setCurrentAnalysis} />] *)
Definition setCurrentAnalysis (r : value) (_ : option value)
    : outcome unit * option value :=
  (Ok tt, Some r).

Definition props (clk : nat -> Z) : env :=
  {| onAnalysisComplete_prop := setCurrentAnalysis; clock := clk |}.

(** First render: [useState(null)], [useState(false)], [useState(0)],
    no timer, nothing awaited. *)
Definition init : loop :=
  {| store := {| uploading := false; uploadProgress := 0;
                 currentAnalysis := None; timers := [];
                 next_handle := 1%nat; clock_reads := 0%nat;
                 trace := [] |};
     waiting := None |}.

End App.

Import App.

(** ** Vocabulary of the properties *)

Module Notions.

Local Open Scope list_scope.

(** The requests the three API functions send. *)
Definition analyze_request (file : File) : request :=
  {| method := "POST"; url := "/api/v1/videos/analyze";
     form := [("video", file)];
     headers := [("Content-Type", "multipart/form-data")] |}.

Definition history_request : request :=
  {| method := "GET"; url := "/api/v1/videos/history"; form := [];
     headers := [] |}.

Definition health_request : request :=
  {| method := "GET"; url := "/health"; form := []; headers := [] |}.

Definition unhealthy : value := Obj [("status", Str "unhealthy")].

(** A record whose [analysis] has the five percentage fields, a non-empty
    [emotions] object and the three feedback lists. *)
Definition complete_report (r : value) : bool :=
  match get "analysis" r with
  | Some a =>
      is_num (get "overall_score" a)
      && is_num (get "confidence_level" a)
      && is_num (get "engagement_score" a)
      && is_num (get "speech_clarity" a)
      && is_num (get "body_language" a)
      && is_nonempty_obj (get "emotions" a)
      && is_arr (get2 "coaching_feedback" "strengths" a)
      && is_arr (get2 "coaching_feedback" "improvements" a)
      && is_arr (get2 "coaching_feedback" "recommendations" a)
  | None => false
  end.

(** [n] calls of the same function one after the other; the server may
    answer each call differently. *)
Fixpoint successive {A : Type} (w : env)
    (server : nat -> request -> outcome response) (p : prog A)
    (n : nat) (m : machine) : list (outcome A) :=
  match n with
  | O => []
  | S n' =>
      let (o, m') := run w (server O) p m in
      o :: successive w (fun i => server (S i)) p n' m'
  end.

(** [file.type.startsWith('video/')] *)
Definition accepted (file : File) : bool :=
  String.prefix "video/" (type file).

(** Events that leave the outstanding request outstanding. *)
Definition quiet (ev : event) : bool :=
  match ev with
  | Settled _ => false
  | _ => true
  end.

(** One submission as the event loop sees it: the drop, whatever happens
    while the request is outstanding, the settlement. *)
Definition submission (file : File) (rest : list File) (mid : list event)
    (o : outcome response) : list event :=
  Dropped (file :: rest) :: mid ++ [Settled o].

(** Readings of a trace. *)
Definition progress_values (tr : list effect) : list Z :=
  flat_map (fun e => match e with ProgressSet v => [v] | _ => [] end) tr.

Definition publications (tr : list effect) : list value :=
  flat_map (fun e => match e with Published r => [r] | _ => [] end) tr.

Definition navigations (tr : list effect) : list string :=
  flat_map (fun e => match e with Navigated p => [p] | _ => [] end) tr.

Definition requests (tr : list effect) : list request :=
  flat_map (fun e => match e with Requested r => [r] | _ => [] end) tr.

Definition severity_eqb (a b : severity) : bool :=
  match a, b with
  | Success, Success | Failure, Failure => true
  | _, _ => false
  end.

Definition notifications (s : severity) (tr : list effect) : list string :=
  flat_map (fun e => match e with
                     | Toast s' msg => if severity_eqb s s' then [msg] else []
                     | _ => []
                     end) tr.

(** The progress value standing at each publication of the trace, [p]
    being the value standing at its start. *)
Fixpoint progress_at_publication (p : Z) (tr : list effect) : list Z :=
  match tr with
  | [] => []
  | ProgressSet v :: tr' => progress_at_publication v tr'
  | Published _ :: tr' => p :: progress_at_publication p tr'
  | _ :: tr' => progress_at_publication p tr'
  end.

(** The part of a task that is left once it has reached its await. *)
Definition resumption (w : env) (p : prog unit) (m : machine)
    : option (outcome response -> prog unit) :=
  match fst (exec w p m) with
  | Blocked _ k => Some k
  | Finished _ => None
  end.

(** What [analyzeVideo] resolves with when the request settles with [o]
    on machine [m]. *)
Definition analysis_result (w : env) (file : File) (o : outcome response)
    (m : machine) : value :=
  match o with
  | Ok resp => data resp
  | Err _ =>
      mock_result file (clock w (clock_reads m)) (clock w (S (clock_reads m)))
  end.

Definition callback_returns (w : env) (r : value) (m : machine) : bool :=
  match fst (onAnalysisComplete_prop w r (currentAnalysis m)) with
  | Ok _ => true
  | Err _ => false
  end.

(** Effects of an accepted drop up to its await. *)
Definition drop_effects (file : File) (h : handle) : list effect :=
  [UploadingSet true; ProgressSet 0; IntervalStarted h 200;
   Requested (analyze_request file)].

(** Effects of the rest of [onDrop], run on [m] with outcome [o]. *)
Definition settle_effects (w : env) (file : File) (h : handle)
    (o : outcome response) (m : machine) : list effect :=
  let result := analysis_result w file o m in
  (match o with Ok _ => [] | Err e => [Console "API Error:" e] end)
  ++ [IntervalCleared h; ProgressSet 100;
      Toast Success "Video analyzed successfully!"; Published result]
  ++ (match fst (onAnalysisComplete_prop w result (currentAnalysis m)) with
      | Ok _ => [Navigated "/results"]
      | Err e => [Console "Upload failed:" e;
                  Toast Failure "Analysis failed. Please try again."]
      end)
  ++ [UploadingSet false; ProgressSet 0].

Definition dropped_machine (file : File) (m : machine) : machine :=
  {| uploading := true; uploadProgress := 0;
     currentAnalysis := currentAnalysis m;
     timers := (next_handle m, ProgressTick) :: timers m;
     next_handle := S (next_handle m);
     clock_reads := clock_reads m;
     trace := trace m ++ drop_effects file (next_handle m) |}.

Definition settled_machine (w : env) (file : File) (h : handle)
    (o : outcome response) (m : machine) : machine :=
  {| uploading := false; uploadProgress := 0;
     currentAnalysis :=
       snd (onAnalysisComplete_prop w (analysis_result w file o m)
              (currentAnalysis m));
     timers := cancel h (timers m);
     next_handle := next_handle m;
     clock_reads := match o with
                    | Ok _ => clock_reads m
                    | Err _ => S (S (clock_reads m))
                    end;
     trace := trace m ++ settle_effects w file h o m |}.

Definition tick_effect (e : effect) : bool :=
  match e with
  | ProgressSet _ | IntervalCleared _ => true
  | _ => false
  end.

(** The two kinds of state the workflow is in between events. *)
Definition idle (l : loop) : Prop :=
  uploading (store l) = false
  /\ uploadProgress (store l) = 0
  /\ timers (store l) = []
  /\ waiting l = None.

(** [in_flight w file rest m0 ticks l]: [file] was dropped on machine
    [m0], its request is outstanding, and [ticks] is what the interval has
    done since. *)
Definition in_flight (w : env) (file : File) (rest : list File)
    (m0 : machine) (ticks : list effect) (l : loop) : Prop :=
  waiting l = resumption w (onDrop (file :: rest)) m0
  /\ uploading (store l) = true
  /\ currentAnalysis (store l) = currentAnalysis m0
  /\ clock_reads (store l) = clock_reads m0
  /\ next_handle (store l) = S (next_handle m0)
  /\ trace (store l) = trace m0 ++ drop_effects file (next_handle m0) ++ ticks
  /\ (timers (store l) = [(next_handle m0, ProgressTick)]
      \/ timers (store l) = [])
  /\ 0 <= uploadProgress (store l) <= 90
  /\ uploadProgress (store l) mod 10 = 0
  /\ forallb tick_effect ticks = true
  /\ StronglySorted Z.le (0 :: progress_values ticks)
  /\ Forall (fun v => v <= uploadProgress (store l))
            (0 :: progress_values ticks).

Definition consistent (w : env) (l : loop) : Prop :=
  idle l
  \/ exists file rest m0 ticks,
       accepted file = true /\ in_flight w file rest m0 ticks l.

Definition resolved {A : Type} (o : outcome A) : Prop := exists v, o = Ok v.

End Notions.

Import Notions.

(** ** What the axios instance makes of a reply

    [axios.create] is given a base URL and a timeout and nothing else: no
    [validateStatus], no [responseType], no [transformResponse].  With
    these defaults a status outside 200..299 rejects the request, and the
    body of an accepted reply is parsed as JSON when it can be and handed
    over as its text when it cannot. *)

Module Axios.

(** A body that parses as JSON, or the text of one that does not. *)
Inductive body : Type :=
| Json (v : value)
| Text (s : string).

Inductive reply : Type :=
| NoReply
| TimedOut
| Replied (code : Z) (b : body).

Definition accepted_status (code : Z) : bool :=
  (200 <=? code) && (code <? 300).

Definition settle (r : reply) : outcome response :=
  match r with
  | NoReply => Err NetworkError
  | TimedOut => Err (RequestTimeout timeout)
  | Replied code b =>
      if accepted_status code then
        Ok {| status := code;
              data := match b with Json v => v | Text s => Str s end |}
      else Err (BadStatus code)
  end.

(** A server whose every reply is [r]. *)
Definition served (r : reply) (_ : request) : outcome response := settle r.

(** The failures of the request: no reply, no reply in time, a reply with
    a status outside 200..299. *)
Definition failed_request (r : reply) : bool :=
  match r with
  | NoReply | TimedOut => true
  | Replied code _ => negb (accepted_status code)
  end.

End Axios.

Import Axios.

(** ** Concrete inputs *)

Module Examples.

Definition pitch : File := {| name := "pitch.mp4"; type := "video/mp4" |}.

Definition slide : File := {| name := "slide.png"; type := "image/png" |}.

(** A clock that advances one second per reading. *)
Definition wall_clock (n : nat) : Z := 1700000000000 + 1000 * Z.of_nat n.

Definition demo : env := props wall_clock.

Definition unreachable (_ : request) : outcome response := Err NetworkError.

Definition always_down (_ : nat) (_ : request) : outcome response :=
  Err (RequestTimeout timeout).

(** A reply with status 200 whose body is not JSON. *)
Definition not_json : reply := Replied 200 (Text "{not json").

Definition empty_body (_ : request) : outcome response :=
  Ok {| status := 200; data := Obj [] |}.

(** What goes on while a request is outstanding: two ticks of the
    interval, a second drop, a tick of a handle that was never issued. *)
Definition meanwhile : list event :=
  [Tick 1%nat; Tick 1%nat; Dropped [pitch]; Tick 7%nat].

(** A parent whose callback throws. *)
Definition faulty : env :=
  {| onAnalysisComplete_prop := fun _ slot => (Err (Thrown "boom"), slot);
     clock := wall_clock |}.

Definition report : response :=
  {| status := 200;
     data := Obj [("id", Str "42"); ("filename", Str "pitch.mp4");
                  ("analysis", mock_analysis);
                  ("created_at", Str "2024-01-01T00:00:00.000Z")] |}.

End Examples.

Import Examples.

Local Open Scope list_scope.

(** ** The views

    What the presentational components compute before React takes over:
    the guards, the property reads and the fallbacks of [Dashboard], the
    verdict of [AnalysisResults], the highlighting of [Navigation].  The
    static markup is left out. *)

Module Views.

(** [ToBoolean]; [None] is [undefined]. *)
Definition truthy (v : option value) : bool :=
  match v with
  | None | Some Null => false
  | Some (Bool b) => b
  | Some (Num q) => negb (Qeq_bool q 0)
  | Some (Str s) => negb (String.eqb s "")
  | Some (Arr _) | Some (Obj _) => true
  end.

(** [v.k]: a [TypeError] when [v] is [null] or [undefined].  None of the
    names the components read is an inherited property, so on any other
    value the read is [get]. *)
Definition member (k : string) (v : option value) : outcome (option value) :=
  match v with
  | None | Some Null => Err (Thrown "TypeError")
  | Some o => Ok (get k o)
  end.

(** [v?.k] *)
Definition optional_member (k : string) (v : option value) : option value :=
  match v with
  | None | Some Null => None
  | Some o => get k o
  end.

(** [v || d] *)
Definition or_else (v d : option value) : option value :=
  if truthy v then v else d.

Definition obind {A B : Type} (o : outcome A) (f : A -> outcome B)
    : outcome B :=
  match o with
  | Ok a => f a
  | Err e => Err e
  end.

Declare Scope outcome_scope.
Delimit Scope outcome_scope with outcome.
Notation "'try' x := o 'in' k" := (obind o (fun x => k))
  (at level 10, x name, o at level 100, k at level 200) : outcome_scope.

(** The value of [v && x]: [x] when [v] is truthy, otherwise [v] itself,
    which is what React is then handed as the child. *)
Inductive guarded (A : Type) : Type :=
| Shown (a : A)
| Skipped (v : option value).
Arguments Shown {A} a.
Arguments Skipped {A} v.

Definition and_then {A : Type} (v : option value) (x : outcome A)
    : outcome (guarded A) :=
  if truthy v then obind x (fun a => Ok (Shown a)) else Ok (Skipped v).

(** A score of the [Latest Analysis] card: its caption and the child
    expression above it. *)
Definition score_card : Type := (string * option value)%type.

Record dashboard_view : Type := {
  results_link : guarded string;
  latest : guarded (list score_card)
}.

End Views.

Import Views.

(** The dashboard with the statistics grid. *)
Module DashboardStats.

Local Open Scope outcome_scope.

Record stat : Type := {
  title : string;
  stat_value : string;
  change : string;
  color : string
}.

Definition stats : list stat :=
  [ {| title := "Total Videos Analyzed"; stat_value := "12";
       change := "+3 this week"; color := "bg-blue-500" |};
    {| title := "Average Confidence Score"; stat_value := "78%";
       change := "+5% improvement"; color := "bg-green-500" |};
    {| title := "Speech Clarity"; stat_value := "85%";
       change := "+2% this month"; color := "bg-purple-500" |};
    {| title := "Engagement Level"; stat_value := "82%";
       change := "+7% improvement"; color := "bg-orange-500" |} ].

Definition Dashboard (currentAnalysis : option value)
    : outcome dashboard_view :=
  try link := and_then currentAnalysis (Ok "/results") in
  try card :=
    and_then currentAnalysis
      (try a1 := member "analysis" currentAnalysis in
       let overall :=
         or_else (optional_member "overall_score" a1) (Some (Str "N/A")) in
       try a2 := member "analysis" currentAnalysis in
       let confidence :=
         or_else (optional_member "confidence_level" a2)
                 (Some (Str "N/A")) in
       try a3 := member "analysis" currentAnalysis in
       let clarity :=
         or_else (optional_member "speech_clarity" a3) (Some (Str "N/A")) in
       Ok [("Overall Score", overall); ("Confidence", confidence);
           ("Speech Clarity", clarity)]) in
  Ok {| results_link := link; latest := card |}.

End DashboardStats.

(** The dashboard with the welcome section. *)
Module DashboardWelcome.

Local Open Scope outcome_scope.

Definition Dashboard (currentAnalysis : option value)
    : outcome (guarded (list score_card)) :=
  and_then currentAnalysis
    (try a1 := member "analysis" currentAnalysis in
     let overall :=
       or_else (optional_member "overall_score" a1) (Some (Num 0%Q)) in
     try a2 := member "analysis" currentAnalysis in
     let confidence :=
       or_else (optional_member "confidence_level" a2) (Some (Num 0%Q)) in
     try a3 := member "analysis" currentAnalysis in
     let engagement :=
       or_else (optional_member "engagement_score" a3) (Some (Num 0%Q)) in
     Ok [("Overall Score", overall); ("Confidence", confidence);
         ("Engagement", engagement)]).

End DashboardWelcome.

Module AnalysisResults.

(** The caption under the overall score, for a score that is a number. *)
Definition verdict (overall_score : Q) : string :=
  if Qle_bool 80%Q overall_score then "Excellent!"
  else if Qle_bool 70%Q overall_score then "Good!"
  else if Qle_bool 60%Q overall_score then "Fair"
  else "Needs Improvement".

(** The captions from worst to best. *)
Definition verdict_rank (caption : string) : nat :=
  if String.eqb caption "Excellent!" then 3
  else if String.eqb caption "Good!" then 2
  else if String.eqb caption "Fair" then 1
  else 0.

End AnalysisResults.

Module Navigation.

Local Open Scope string_scope.

Definition isActive (pathname path : string) : bool :=
  String.eqb pathname path.

Record nav_link : Type := { to : string; className : string; text : string }.

Definition active_class : string := "bg-blue-500 text-white".

Definition inactive_class : string :=
  "text-gray-600 hover:text-blue-500 hover:bg-blue-50".

Definition link_class (active : bool) : string :=
  "px-4 py-2 rounded-lg transition-colors duration-200 "
  ++ (if active then active_class else inactive_class).

Definition Navigation (pathname : string) : list nav_link :=
  [ {| to := "/"; className := link_class (isActive pathname "/");
       text := "Dashboard" |};
    {| to := "/upload"; className := link_class (isActive pathname "/upload");
       text := "Upload Video" |};
    {| to := "/results";
       className := link_class (isActive pathname "/results");
       text := "Results" |} ].

Definition highlighted (l : nav_link) : bool :=
  String.eqb (className l) (link_class true).

End Navigation.

(** ** Vocabulary of the further properties *)

Module Frames.

(** Effects that occur outside the settlement of a request: the writes of
    an accepted drop and of the interval, and the rejection of a file that
    is not a video. *)
Definition routine (e : effect) : bool :=
  match e with
  | UploadingSet _ | ProgressSet _ | IntervalStarted _ _
  | IntervalCleared _ | Requested _ => true
  | Toast Failure msg => String.eqb msg "Please upload a video file"
  | _ => false
  end.

(** Neither the failure report of [onDrop]'s handler nor an unhandled
    rejection. *)
Definition calm (e : effect) : bool :=
  match e with
  | Toast Failure msg =>
      negb (String.eqb msg "Analysis failed. Please try again.")
  | Unhandled _ => false
  | _ => true
  end.

(** What a score card shows for the property [k] of [record.analysis]:
    the score when it is truthy, the fallback otherwise. *)
Definition score_or (fallback : value) (k : string) (record : value)
    : option value :=
  let score := get2 "analysis" k record in
  if truthy score then score else Some fallback.

(** An accepted drop followed by [n] ticks of the interval it started. *)
Definition drop_and_ticks (file : File) (rest : list File) (h : handle)
    (n : nat) : list event :=
  Dropped (file :: rest) :: map Tick (repeat h n).

End Frames.

Import Frames.

(** * The model at work *)

Example toISOString_epoch : toISOString 0 = "1970-01-01T00:00:00.000Z".
Proof. reflexivity. Qed.

Example toISOString_leap_day :
  toISOString 1709251199999 = "2024-02-29T23:59:59.999Z".
Proof. reflexivity. Qed.

Example toISOString_before_epoch :
  toISOString (-1) = "1969-12-31T23:59:59.999Z".
Proof. reflexivity. Qed.

Example number_toString_now :
  number_toString 1700000000000 = "1700000000000".
Proof. reflexivity. Qed.

(** A video is dropped, the interval ticks twice, the server answers. *)
Example trace_of_a_submission :
  trace (store (run_events demo init
                  (submission pitch [] meanwhile (Ok report))))
  = [UploadingSet true; ProgressSet 0; IntervalStarted 1%nat 200;
     Requested (analyze_request pitch);
     ProgressSet 10; ProgressSet 20;
     IntervalCleared 1%nat; ProgressSet 100;
     Toast Success "Video analyzed successfully!";
     Published (data report); Navigated "/results";
     UploadingSet false; ProgressSet 0].
Proof. reflexivity. Qed.

(** A slow server: the interval reaches the ceiling, clears itself on its
    tenth tick and is silent afterwards. *)
Example progress_holds_at_ceiling :
  progress_values
    (trace (store (run_events demo init
                     (submission pitch [] (map Tick (repeat 1%nat 15))
                        (Err NetworkError)))))
  = [0; 10; 20; 30; 40; 50; 60; 70; 80; 90; 90; 100; 0].
Proof. reflexivity. Qed.

(** The callback throws: the handler of [onDrop] reports the failure, the
    [finally] block resets the flags, no timer is left. *)
Example trace_when_callback_throws :
  let l := run_events faulty init (submission pitch [] [] (Ok report)) in
  trace (store l)
  = [UploadingSet true; ProgressSet 0; IntervalStarted 1%nat 200;
     Requested (analyze_request pitch);
     IntervalCleared 1%nat; ProgressSet 100;
     Toast Success "Video analyzed successfully!";
     Published (data report);
     Console "Upload failed:" (Thrown "boom");
     Toast Failure "Analysis failed. Please try again.";
     UploadingSet false; ProgressSet 0]
  /\ timers (store l) = [] /\ currentAnalysis (store l) = None.
Proof. repeat split. Qed.

(** * Properties of the API module *)

Section ApiProperties.

Variable w : env.

(** What a caller that awaits each of the three functions gets. *)
Lemma run_analyzeVideo (server : request -> outcome response)
    (file : File) (m : machine) :
  run w server (analyzeVideo file) m =
  match server (analyze_request file) with
  | Ok resp => (Ok (data resp), emit (Requested (analyze_request file)) m)
  | Err e =>
      (Ok (mock_result file (clock w (clock_reads m))
             (clock w (S (clock_reads m)))),
       with_clock_reads (S (S (clock_reads m)))
         (emit (Console "API Error:" e)
            (emit (Requested (analyze_request file)) m)))
  end.
Proof.
  cbn. fold (analyze_request file).
  destruct (server (analyze_request file)) as [resp | e]; reflexivity.
Qed.

Lemma run_getHealthCheck (server : request -> outcome response)
    (m : machine) :
  run w server getHealthCheck m =
  match server health_request with
  | Ok resp => (Ok (data resp), emit (Requested health_request) m)
  | Err e =>
      (Ok unhealthy,
       emit (Console "Health check failed:" e)
         (emit (Requested health_request) m))
  end.
Proof.
  cbn. fold health_request.
  destruct (server health_request) as [resp | e]; reflexivity.
Qed.

Lemma run_getAnalysisHistory (server : request -> outcome response)
    (m : machine) :
  run w server getAnalysisHistory m =
  match server history_request with
  | Ok resp => (Ok (data resp), emit (Requested history_request) m)
  | Err e =>
      (Ok (Arr []),
       emit (Console "API Error:" e) (emit (Requested history_request) m))
  end.
Proof.
  cbn. fold history_request.
  destruct (server history_request) as [resp | e]; reflexivity.
Qed.

(** C1, as amended.  [analyzeVideo] never rejects: whatever the server
    answers, the call resolves.  When the request fails (no reply, no
    reply in time, a status outside 200..299, or any other rejection of the
    axios call) it resolves with the mock record, whose [filename] is the
    name of the input file and whose [analysis.overall_score] is 78.  A
    reply with an accepted status whose body is not JSON is no failure of
    the request: the call resolves with the text of the body. *)
Theorem analyzeVideo_never_rejects
    (server : request -> outcome response) (file : File) (m : machine)
    (r : reply) :
  resolved (fst (run w server (analyzeVideo file) m))
  /\ (forall e, server (analyze_request file) = Err e ->
      exists v, fst (run w server (analyzeVideo file) m) = Ok v
        /\ get "filename" v = Some (Str (name file))
        /\ get2 "analysis" "overall_score" v = Some (Num 78%Q))
  /\ (failed_request r = true ->
      exists v, fst (run w (served r) (analyzeVideo file) m) = Ok v
        /\ get "filename" v = Some (Str (name file))
        /\ get2 "analysis" "overall_score" v = Some (Num 78%Q))
  /\ (forall code text,
        accepted_status code = true ->
        fst (run w (served (Replied code (Text text))) (analyzeVideo file) m)
        = Ok (Str text)).
Proof.
  rewrite !run_analyzeVideo. split; [|split; [|split]].
  - destruct (server (analyze_request file)); eexists; reflexivity.
  - intros e ->. eexists. repeat split.
  - unfold served.
    destruct r as [| | code b]; cbn; intros Hfail.
    + eexists. repeat split.
    + eexists. repeat split.
    + destruct (accepted_status code); [discriminate|].
      eexists. repeat split.
  - intros code text Hcode. rewrite run_analyzeVideo.
    unfold served. cbn. rewrite Hcode. reflexivity.
Qed.

(** C6, as amended.  When the POST fails, [analyzeVideo] resolves with a
    record whose [analysis] has the five percentage fields, a non-empty
    [emotions] object and the three feedback lists.  When the POST
    succeeds, it resolves with the body the server sent, as it is: that
    record has those fields exactly when the body has them. *)
Theorem fallback_report_complete
    (server : request -> outcome response) (file : File) (m : machine) :
  match server (analyze_request file) with
  | Ok resp => fst (run w server (analyzeVideo file) m) = Ok (data resp)
  | Err _ =>
      exists v, fst (run w server (analyzeVideo file) m) = Ok v
        /\ complete_report v = true
  end.
Proof.
  rewrite run_analyzeVideo.
  destruct (server (analyze_request file)); [reflexivity|].
  eexists. split; reflexivity.
Qed.

Lemma successive_resolved {A : Type} (p : prog A) :
  (forall srv m, resolved (fst (run w srv p m))) ->
  forall n server m, Forall resolved (successive w server p n m).
Proof.
  intros Hp. induction n as [| n IH]; intros server m; cbn; [constructor|].
  specialize (Hp (server O) m).
  destruct (run w (server O) p m) as [o m']. constructor; [exact Hp|apply IH].
Qed.

Lemma successive_constant {A : Type} (p : prog A) (req : request) (v : A)
    (server : nat -> request -> outcome response) :
  (forall srv m e, srv req = Err e -> fst (run w srv p m) = Ok v) ->
  (forall i, exists e, server i req = Err e) ->
  forall n m, successive w server p n m = repeat (Ok v) n.
Proof.
  intros Hp Hdown n. revert server Hdown.
  induction n as [| n IH]; intros server Hdown m; cbn; [reflexivity|].
  destruct (Hdown O) as [e He]. specialize (Hp (server O) m e He).
  destruct (run w (server O) p m) as [o m']. cbn in Hp. subst o.
  f_equal. apply IH. intros i. apply (Hdown (S i)).
Qed.

(** C9.  [getAnalysisHistory] and [getHealthCheck] never reject, however
    often they are called and whatever the server answers.  While every
    history request fails, each call of [getAnalysisHistory] resolves with
    the empty array; while every health request fails, each call of
    [getHealthCheck] resolves with the same [{ status: 'unhealthy' }]. *)
Theorem history_and_health_absorb_failures
    (server : nat -> request -> outcome response) (n : nat) (m : machine) :
  Forall resolved (successive w server getAnalysisHistory n m)
  /\ Forall resolved (successive w server getHealthCheck n m)
  /\ ((forall i, exists e, server i history_request = Err e) ->
      successive w server getAnalysisHistory n m = repeat (Ok (Arr [])) n)
  /\ ((forall i, exists e, server i health_request = Err e) ->
      successive w server getHealthCheck n m = repeat (Ok unhealthy) n).
Proof.
  repeat split.
  - apply successive_resolved. intros srv m'. rewrite run_getAnalysisHistory.
    destruct (srv history_request); eexists; reflexivity.
  - apply successive_resolved. intros srv m'. rewrite run_getHealthCheck.
    destruct (srv health_request); eexists; reflexivity.
  - intros Hdown. apply (successive_constant _ history_request); [|exact Hdown].
    intros srv m' e He. rewrite run_getAnalysisHistory, He. reflexivity.
  - intros Hdown. apply (successive_constant _ health_request); [|exact Hdown].
    intros srv m' e He. rewrite run_getHealthCheck, He. reflexivity.
Qed.

End ApiProperties.

(** C1 as stated fails: a reply with status 200 whose body is not JSON
    makes [analyzeVideo] resolve with the text of the body, which is not
    the mock record. *)
Lemma malformed_response_is_returned :
  let result := fst (run demo (served not_json) (analyzeVideo pitch)
                       (store init)) in
  result = Ok (Str "{not json")
  /\ ~ (exists v, result = Ok v
                 /\ get "filename" v = Some (Str (name pitch))
                 /\ get2 "analysis" "overall_score" v = Some (Num 78%Q)).
Proof.
  split; [reflexivity|].
  intros (v & Hv & Hname & _). cbn in Hv. injection Hv as <-.
  discriminate Hname.
Qed.

(** C8, as amended.  The mock record is fixed apart from its two
    time-derived fields: two failing calls for the same file, whatever the
    errors, return records with the same [filename] and the same
    [analysis]; [id] renders the reading of [Date.now()], [created_at] the
    reading of [new Date()], and the two records are equal in every field
    when these readings are. *)
Theorem fallback_fixed_up_to_clock (w1 w2 : env)
    (server1 server2 : request -> outcome response) (file : File)
    (m1 m2 : machine) (e1 e2 : error) :
  server1 (analyze_request file) = Err e1 ->
  server2 (analyze_request file) = Err e2 ->
  exists v1 v2,
    fst (run w1 server1 (analyzeVideo file) m1) = Ok v1
    /\ fst (run w2 server2 (analyzeVideo file) m2) = Ok v2
    /\ get "filename" v1 = get "filename" v2
    /\ get "analysis" v1 = Some mock_analysis
    /\ get "analysis" v2 = Some mock_analysis
    /\ get "id" v1 = Some (Str (number_toString (clock w1 (clock_reads m1))))
    /\ get "created_at" v1
       = Some (Str (toISOString (clock w1 (S (clock_reads m1)))))
    /\ (clock w1 (clock_reads m1) = clock w2 (clock_reads m2) ->
        clock w1 (S (clock_reads m1)) = clock w2 (S (clock_reads m2)) ->
        v1 = v2).
Proof.
  intros H1 H2. rewrite !run_analyzeVideo, H1, H2. cbn [fst].
  do 2 eexists. repeat split.
  intros -> ->. reflexivity.
Qed.

(** C8 as stated fails: two failing calls for the same file, made one
    after the other, return different records. *)
Lemma fallback_differs_between_calls :
  let first := run demo unreachable (analyzeVideo pitch) (store init) in
  let second := run demo unreachable (analyzeVideo pitch) (snd first) in
  fst first <> fst second.
Proof.
  vm_compute. intros H. discriminate H.
Qed.

(** C6 as stated fails: a server that answers 200 with the body [{}]
    makes [analyzeVideo] resolve with a record that has no [analysis]. *)
Lemma server_body_may_lack_report :
  ~ (forall (w : env) (server : request -> outcome response) (file : File)
       (m : machine) (v : value),
       fst (run w server (analyzeVideo file) m) = Ok v ->
       complete_report v = true).
Proof.
  intros H.
  specialize (H demo empty_body pitch (store init) (Obj []) eq_refl).
  discriminate H.
Qed.

(** * Properties of the upload workflow *)

(** The mock record and the renderings of its clock readings stay folded
    while runs are simplified. *)
#[local] Arguments mock_result : simpl never.
#[local] Arguments toISOString : simpl never.
#[local] Arguments number_toString : simpl never.

(** A machine is its seven fields. *)
Lemma machine_eq (m : machine) (u : bool) (p : Z) (c : option value)
    (ts : list (handle * closure)) (n : handle) (r : nat)
    (tr : list effect) :
  uploading m = u -> uploadProgress m = p -> currentAnalysis m = c ->
  timers m = ts -> next_handle m = n -> clock_reads m = r -> trace m = tr ->
  m = {| uploading := u; uploadProgress := p; currentAnalysis := c;
         timers := ts; next_handle := n; clock_reads := r; trace := tr |}.
Proof. destruct m; cbn; intros; subst; reflexivity. Qed.

(** Settles an equation between a run's final machine and a record
    written out, field by field. *)
Ltac machine_fields :=
  f_equal; apply machine_eq; cbn; rewrite <- ?app_assoc; reflexivity.

Section Controller.

Variable w : env.

(** [onDrop] up to its await, case by case. *)
Lemma exec_onDrop_empty (m : machine) :
  exec w (onDrop []) m = (Finished (Ok tt), m).
Proof. reflexivity. Qed.

Lemma exec_onDrop_rejected (file : File) (rest : list File) (m : machine) :
  accepted file = false ->
  exec w (onDrop (file :: rest)) m =
  (Finished (Ok tt), emit (Toast Failure "Please upload a video file") m).
Proof.
  unfold accepted, onDrop. cbn [nth_error]. intros ->. reflexivity.
Qed.

Lemma exec_onDrop_accepted (file : File) (rest : list File) (m : machine) :
  accepted file = true ->
  exists k,
    resumption w (onDrop (file :: rest)) m = Some k
    /\ exec w (onDrop (file :: rest)) m
       = (Blocked (analyze_request file) k, dropped_machine file m).
Proof.
  unfold resumption, accepted, onDrop. cbn [nth_error]. intros ->.
  cbn. eexists. split; [reflexivity|].
  unfold dropped_machine, drop_effects, analyze_request. machine_fields.
Qed.

(** The rest of [onDrop]: whatever the outcome of the request and of the
    callback, it finishes normally on [settled_machine]. *)
Lemma exec_resumption (file : File) (rest : list File) (m0 : machine)
    (k : outcome response -> prog unit) (o : outcome response)
    (m : machine) :
  accepted file = true ->
  resumption w (onDrop (file :: rest)) m0 = Some k ->
  exec w (k o) m
  = (Finished (Ok tt), settled_machine w file (next_handle m0) o m).
Proof.
  unfold resumption, accepted, onDrop. cbn [nth_error]. intros ->.
  cbn. intros [= <-].
  unfold settled_machine, settle_effects, analysis_result.
  destruct o as [resp | e]; cbn.
  - destruct (onAnalysisComplete_prop w (data resp) (currentAnalysis m))
      as [[[] | e'] slot]; cbn; machine_fields.
  - destruct (onAnalysisComplete_prop w _ (currentAnalysis m))
      as [[[] | e'] slot]; cbn; machine_fields.
Qed.

(** A sorted list bounded by [p] stays sorted when a [q] above [p] is
    appended. *)
Lemma sorted_snoc (xs : list Z) (p q : Z) :
  StronglySorted Z.le xs ->
  Forall (fun v => v <= p) xs ->
  p <= q ->
  StronglySorted Z.le (xs ++ [q]) /\ Forall (fun v => v <= q) (xs ++ [q]).
Proof.
  intros Hs Hb Hpq. split.
  - induction Hs as [| x xs Hs IH Hx]; cbn.
    + repeat constructor.
    + inversion Hb; subst. constructor; [auto|].
      apply Forall_app. split; [assumption|]. constructor; [lia|constructor].
  - apply Forall_app. split.
    + eapply Forall_impl; [|exact Hb]. cbn. intros; lia.
    + constructor; [lia|constructor].
Qed.

Lemma progress_values_app (a b : list effect) :
  progress_values (a ++ b) = progress_values a ++ progress_values b.
Proof. apply flat_map_app. Qed.

(** An accepted drop on a machine without timers starts a submission. *)
Lemma in_flight_drop (file : File) (rest : list File) (l : loop) :
  accepted file = true ->
  uploading (store l) = false ->
  timers (store l) = [] ->
  in_flight w file rest (store l) [] (step w l (Dropped (file :: rest))).
Proof.
  intros Hacc Hup Htm. unfold step. rewrite Hup. unfold dispatch.
  destruct (exec_onDrop_accepted file rest (store l) Hacc) as (k & Hk & ->).
  unfold in_flight. rewrite Hk.
  cbn [store waiting dropped_machine uploading uploadProgress currentAnalysis
       timers next_handle clock_reads trace progress_values flat_map
       forallb].
  rewrite Htm, app_nil_r.
  repeat split; auto; try lia.
  - repeat constructor.
  - constructor; [lia | constructor].
Qed.

(** While the request is outstanding, a further drop is ignored and a tick
    either does nothing or adds its writes to the trace. *)
Lemma in_flight_quiet (file : File) (rest : list File) (m0 : machine)
    (ticks : list effect) (l : loop) (ev : event) :
  in_flight w file rest m0 ticks l ->
  quiet ev = true ->
  exists more, in_flight w file rest m0 (ticks ++ more) (step w l ev).
Proof.
  intros (Hw & Hu & Hca & Hcr & Hnh & Htr & Htm & Hrange & Hmod & Hte
          & Hs & Hb) Hq.
  destruct ev as [files | h | o]; [| | discriminate].
  - exists []. rewrite app_nil_r. unfold step. rewrite Hu.
    repeat split; auto; tauto.
  - unfold step. destruct Htm as [Htm | Htm]; rewrite Htm; cbn [timer].
    2:{ exists []. rewrite app_nil_r. repeat split; auto; tauto. }
    destruct (Nat.eqb_spec h (next_handle m0)) as [-> | Hne].
    2:{ exists []. rewrite app_nil_r. repeat split; auto; tauto. }
    unfold dispatch. cbn.
    destruct (Z.leb_spec 90 (uploadProgress (store l))) as [Hge | Hlt].
    + exists [IntervalCleared (next_handle m0); ProgressSet 90].
      destruct (sorted_snoc (0 :: progress_values ticks) _ 90 Hs Hb)
        as [Hs' Hb']; [lia|].
      unfold in_flight; cbn.
      rewrite Htr, Htm, progress_values_app, forallb_app, Hte.
      cbn. rewrite Nat.eqb_refl, <- !app_assoc.
      repeat split; auto; try lia.
    + exists [ProgressSet (uploadProgress (store l) + 10)].
      destruct (sorted_snoc (0 :: progress_values ticks) _
                  (uploadProgress (store l) + 10) Hs Hb)
        as [Hs' Hb']; [lia|].
      assert (Hnext : uploadProgress (store l) + 10 <= 90
                      /\ (uploadProgress (store l) + 10) mod 10 = 0)
        by (Z.div_mod_to_equations; lia).
      unfold in_flight; cbn.
      rewrite Htr, Htm, progress_values_app, forallb_app, Hte.
      cbn. rewrite <- !app_assoc.
      repeat split; auto; try lia; apply Hnext.
Qed.

Lemma in_flight_run (file : File) (rest : list File) (m0 : machine)
    (mid : list event) :
  forall (ticks : list effect) (l : loop),
    in_flight w file rest m0 ticks l ->
    forallb quiet mid = true ->
    exists more, in_flight w file rest m0 (ticks ++ more) (run_events w l mid).
Proof.
  induction mid as [| ev mid IH]; intros ticks l Hin Hq.
  - exists []. rewrite app_nil_r. exact Hin.
  - cbn in Hq. apply andb_prop in Hq as [Hev Hmid].
    destruct (in_flight_quiet _ _ _ _ _ ev Hin Hev) as (more1 & Hin1).
    destruct (IH _ _ Hin1 Hmid) as (more2 & Hin2).
    exists (more1 ++ more2). rewrite app_assoc. exact Hin2.
Qed.

(** The settlement runs the rest of [onDrop]. *)
Lemma step_settled (file : File) (rest : list File) (m0 : machine)
    (ticks : list effect) (l : loop) (o : outcome response) :
  accepted file = true ->
  in_flight w file rest m0 ticks l ->
  step w l (Settled o)
  = {| store := settled_machine w file (next_handle m0) o (store l);
       waiting := None |}.
Proof.
  intros Hacc (Hw & _). unfold step. rewrite Hw.
  destruct (exec_onDrop_accepted file rest m0 Hacc) as (k & Hk & _).
  rewrite Hk. unfold dispatch. cbn [store waiting].
  rewrite (exec_resumption file rest m0 k o (store l) Hacc Hk). reflexivity.
Qed.

Lemma settled_idle (file : File) (rest : list File) (m0 : machine)
    (ticks : list effect) (l : loop) (o : outcome response) :
  in_flight w file rest m0 ticks l ->
  idle {| store := settled_machine w file (next_handle m0) o (store l);
          waiting := None |}.
Proof.
  intros (_ & _ & _ & _ & _ & _ & Htm & _).
  unfold idle. cbn. repeat split.
  destruct Htm as [-> | ->]; cbn; [rewrite Nat.eqb_refl|]; reflexivity.
Qed.

Lemma settle_effects_ext (file : File) (h : handle) (o : outcome response)
    (m m' : machine) :
  clock_reads m = clock_reads m' ->
  currentAnalysis m = currentAnalysis m' ->
  settle_effects w file h o m = settle_effects w file h o m'
  /\ analysis_result w file o m = analysis_result w file o m'.
Proof.
  unfold settle_effects, analysis_result. intros -> ->. split; reflexivity.
Qed.

(** Every event keeps the workflow in one of its two kinds of state. *)
Lemma step_consistent (l : loop) (ev : event) :
  consistent w l -> consistent w (step w l ev).
Proof.
  intros [Hidle | (file & rest & m0 & ticks & Hacc & Hin)].
  - destruct Hidle as (Hu & Hp & Htm & Hw).
    destruct ev as [files | h | o].
    + destruct files as [| file rest].
      * left. unfold step. rewrite Hu. unfold dispatch. cbn.
        repeat split; assumption.
      * destruct (accepted file) eqn:Hacc.
        -- right. exists file, rest, (store l), []. split; [assumption|].
           apply in_flight_drop; assumption.
        -- left. unfold step. rewrite Hu. unfold dispatch.
           rewrite (exec_onDrop_rejected file rest (store l) Hacc).
           repeat split; assumption.
    + left. unfold step. rewrite Htm. cbn. repeat split; assumption.
    + left. unfold step. rewrite Hw. repeat split; assumption.
  - destruct ev as [files | h | o].
    + right. exists file, rest, m0, ticks. split; [assumption|].
      unfold step. rewrite (proj1 (proj2 Hin)). exact Hin.
    + right. exists file, rest, m0.
      destruct (in_flight_quiet _ _ _ _ _ (Tick h) Hin eq_refl)
        as (more & Hin').
      exists (ticks ++ more). split; assumption.
    + left. rewrite (step_settled _ _ _ _ _ o Hacc Hin).
      eapply settled_idle; eassumption.
Qed.

Lemma init_consistent : consistent w init.
Proof. left. repeat split. Qed.

Lemma reachable_consistent (evs : list event) :
  forall l, consistent w l -> consistent w (run_events w l evs).
Proof.
  induction evs as [| ev evs IH]; intros l Hl; [exact Hl|].
  cbn. apply IH, step_consistent, Hl.
Qed.

Lemma consistent_not_uploading (l : loop) :
  consistent w l -> uploading (store l) = false -> idle l.
Proof.
  intros [Hidle | (file & rest & m0 & ticks & _ & _ & Hu & _)] Hf;
    [assumption | congruence].
Qed.

(** The shape of one submission made from a state that is not uploading. *)
Lemma submission_shape (l0 : loop) (file : File) (rest : list File)
    (mid : list event) (o : outcome response) :
  consistent w l0 ->
  uploading (store l0) = false ->
  accepted file = true ->
  forallb quiet mid = true ->
  let h := next_handle (store l0) in
  let l1 := run_events w l0 (submission file rest mid o) in
  exists ticks,
    trace (store l1)
    = trace (store l0) ++ drop_effects file h ++ ticks
        ++ settle_effects w file h o (store l0)
    /\ forallb tick_effect ticks = true
    /\ StronglySorted Z.le (0 :: progress_values ticks)
    /\ Forall (fun v => v <= 90) (0 :: progress_values ticks)
    /\ idle l1
    /\ currentAnalysis (store l1)
       = snd (onAnalysisComplete_prop w (analysis_result w file o (store l0))
                (currentAnalysis (store l0))).
Proof.
  intros Hc Hu Hacc Hq h l1.
  destruct (consistent_not_uploading l0 Hc Hu) as (_ & _ & Htm & _).
  pose proof (in_flight_drop file rest l0 Hacc Hu Htm) as Hin0.
  destruct (in_flight_run _ _ _ mid _ _ Hin0 Hq) as (ticks & Hin).
  cbn [app] in Hin. exists ticks.
  assert (Hl1 : l1 = {| store := settled_machine w file h o
                           (store (run_events w (step w l0 (Dropped (file :: rest))) mid));
                        waiting := None |}).
  { subst l1. unfold submission, run_events. cbn [fold_left].
    rewrite fold_left_app. cbn [fold_left].
    apply (step_settled _ _ _ _ _ o Hacc Hin). }
  pose proof (settled_idle file rest _ _ _ o Hin) as Hidle.
  fold h in Hidle. rewrite <- Hl1 in Hidle.
  destruct Hin as (_ & _ & Hca & Hcr & _ & Htr & _ & Hrange & _ & Hte & Hs & Hb).
  destruct (settle_effects_ext file h o _ _ Hcr Hca) as [Heff Hres].
  split; [|split; [|split; [|split; [|split]]]].
  - rewrite Hl1. cbn [store settled_machine trace].
    rewrite Heff, Htr. fold h. rewrite <- !app_assoc. reflexivity.
  - exact Hte.
  - exact Hs.
  - eapply Forall_impl; [|exact Hb]. intros v Hv. cbv beta in Hv. lia.
  - exact Hidle.
  - rewrite Hl1. cbn [store settled_machine currentAnalysis].
    rewrite Hres, Hca. reflexivity.
Qed.

(** What the interval writes is neither a publication, a navigation, a
    request nor a notification. *)
Lemma ticks_silent (t : list effect) :
  forallb tick_effect t = true ->
  publications t = [] /\ navigations t = [] /\ requests t = []
  /\ forall s, notifications s t = [].
Proof.
  induction t as [| e t IH]; cbn; [auto|].
  intros H. apply andb_prop in H as [He Ht].
  destruct (IH Ht) as (Hp & Hn & Hr & Hs).
  destruct e; try discriminate; cbn; auto.
Qed.

Lemma ticks_before_publication (t rest' : list effect) :
  forallb tick_effect t = true ->
  forall p, exists p',
    progress_at_publication p (t ++ rest') = progress_at_publication p' rest'.
Proof.
  induction t as [| e t IH]; cbn; intros H p; [now exists p|].
  apply andb_prop in H as [He Ht].
  destruct e; try discriminate; cbn; apply (IH Ht).
Qed.

(** C3.  In every submission of an accepted file, made in any reachable
    state that is not uploading, the values written to the progress state
    start at 0 and do not decrease up to 100, none of them exceeds 100,
    the value standing when the result is published is 100, and the last
    write resets it to 0 with the uploading flag off. *)
Theorem progress_profile (evs : list event) (file : File) (rest : list File)
    (mid : list event) (o : outcome response) :
  let l0 := run_events w init evs in
  let l1 := run_events w l0 (submission file rest mid o) in
  uploading (store l0) = false ->
  accepted file = true ->
  forallb quiet mid = true ->
  exists seg rising,
    trace (store l1) = trace (store l0) ++ seg
    /\ progress_values seg = (0 :: rising ++ [100]) ++ [0]
    /\ StronglySorted Z.le (0 :: rising ++ [100])
    /\ Forall (fun v => v <= 100) (progress_values seg)
    /\ progress_at_publication (uploadProgress (store l0)) seg = [100]
    /\ uploadProgress (store l1) = 0
    /\ uploading (store l1) = false.
Proof.
  intros l0 l1 Hu Hacc Hq.
  pose proof (reachable_consistent evs init init_consistent) as Hc.
  destruct (submission_shape l0 file rest mid o Hc Hu Hacc Hq)
    as (ticks & Htr & Hte & Hs & Hb & Hidle & _).
  fold l0 l1 in Htr, Hidle.
  set (h := next_handle (store l0)) in *.
  exists (drop_effects file h ++ ticks ++ settle_effects w file h o (store l0)),
         (progress_values ticks).
  destruct (sorted_snoc _ 90 100 Hs Hb) as [Hs' Hb']; [lia|].
  assert (Hpv : progress_values (settle_effects w file h o (store l0))
                = [100; 0]).
  { unfold settle_effects.
    destruct o; destruct (fst (onAnalysisComplete_prop w _ _)); reflexivity. }
  assert (Hvals : progress_values
            (drop_effects file h ++ ticks ++ settle_effects w file h o (store l0))
          = (0 :: progress_values ticks ++ [100]) ++ [0]).
  { rewrite !progress_values_app, Hpv. cbn. rewrite <- app_assoc. reflexivity. }
  repeat split.
  - exact Htr.
  - exact Hvals.
  - exact Hs'.
  - rewrite Hvals. apply Forall_app. split; [exact Hb'|].
    constructor; [lia|constructor].
  - cbn [drop_effects app progress_at_publication].
    destruct (ticks_before_publication ticks
                (settle_effects w file h o (store l0)) Hte 0) as (p' & ->).
    unfold settle_effects.
    destruct o; destruct (fst (onAnalysisComplete_prop w _ _)); reflexivity.
  - apply Hidle.
  - apply Hidle.
Qed.

Lemma readings_app (a b : list effect) :
  publications (a ++ b) = publications a ++ publications b
  /\ navigations (a ++ b) = navigations a ++ navigations b
  /\ forall s, notifications s (a ++ b) = notifications s a ++ notifications s b.
Proof. repeat split; intros; apply flat_map_app. Qed.

(** C4.  In every submission of an accepted file in which the
    [onAnalysisComplete] callback returns normally, the callback is invoked
    exactly once, with the result of [analyzeVideo], and there is exactly
    one success notification, exactly one navigation, to [/results], and
    no failure notification. *)
Theorem single_publication (evs : list event) (file : File)
    (rest : list File) (mid : list event) (o : outcome response) :
  let l0 := run_events w init evs in
  let l1 := run_events w l0 (submission file rest mid o) in
  let result := analysis_result w file o (store l0) in
  uploading (store l0) = false ->
  accepted file = true ->
  forallb quiet mid = true ->
  callback_returns w result (store l0) = true ->
  exists seg,
    trace (store l1) = trace (store l0) ++ seg
    /\ publications seg = [result]
    /\ notifications Success seg = ["Video analyzed successfully!"]
    /\ navigations seg = ["/results"]
    /\ notifications Failure seg = [].
Proof.
  intros l0 l1 result Hu Hacc Hq Hret.
  pose proof (reachable_consistent evs init init_consistent) as Hc.
  destruct (submission_shape l0 file rest mid o Hc Hu Hacc Hq)
    as (ticks & Htr & Hte & _).
  fold l0 l1 in Htr. set (h := next_handle (store l0)) in *.
  eexists. split; [exact Htr|].
  destruct (ticks_silent ticks Hte) as (Hp & Hn & _ & Hs).
  destruct (readings_app (drop_effects file h)
              (ticks ++ settle_effects w file h o (store l0)))
    as (-> & -> & Hsplit1).
  destruct (readings_app ticks (settle_effects w file h o (store l0)))
    as (-> & -> & Hsplit2).
  rewrite !Hsplit1, !Hsplit2, Hp, Hn, !Hs.
  unfold callback_returns in Hret. fold result in Hret.
  unfold settle_effects. fold result.
  destruct (fst (onAnalysisComplete_prop w result (currentAnalysis (store l0))));
    [|discriminate].
  destruct o; repeat split.
Qed.

(** C7.  In every submission of an accepted file whose request is
    answered with a 2xx response, the one record published is the body of
    that response, [created_at] included, and the slot is what the
    callback makes of that body. *)
Theorem server_body_published_unmodified (evs : list event) (file : File)
    (rest : list File) (mid : list event) (resp : response) :
  let l0 := run_events w init evs in
  let l1 := run_events w l0 (submission file rest mid (Ok resp)) in
  uploading (store l0) = false ->
  accepted file = true ->
  forallb quiet mid = true ->
  exists seg,
    trace (store l1) = trace (store l0) ++ seg
    /\ publications seg = [data resp]
    /\ map (get "created_at") (publications seg)
       = [get "created_at" (data resp)]
    /\ currentAnalysis (store l1)
       = snd (onAnalysisComplete_prop w (data resp)
                (currentAnalysis (store l0))).
Proof.
  intros l0 l1 Hu Hacc Hq.
  pose proof (reachable_consistent evs init init_consistent) as Hc.
  destruct (submission_shape l0 file rest mid (Ok resp) Hc Hu Hacc Hq)
    as (ticks & Htr & Hte & _ & _ & _ & Hslot).
  fold l0 l1 in Htr, Hslot. set (h := next_handle (store l0)) in *.
  eexists. split; [exact Htr|].
  destruct (ticks_silent ticks Hte) as (Hp & _).
  assert (Hpub : publications
            (drop_effects file h ++ ticks
               ++ settle_effects w file h (Ok resp) (store l0))
          = [data resp]).
  { destruct (readings_app (drop_effects file h)
                (ticks ++ settle_effects w file h (Ok resp) (store l0)))
      as (-> & _).
    destruct (readings_app ticks (settle_effects w file h (Ok resp) (store l0)))
      as (-> & _).
    rewrite Hp. unfold settle_effects. cbn.
    destruct (fst (onAnalysisComplete_prop w _ _)); reflexivity. }
  rewrite Hpub. repeat split. exact Hslot.
Qed.

Lemma ticks_on_idle (l : loop) (hs : list handle) :
  timers (store l) = [] -> run_events w l (map Tick hs) = l.
Proof.
  intros Htm. induction hs as [| h hs IH]; [reflexivity|].
  cbn. rewrite Htm. cbn. exact IH.
Qed.

Lemma timer_cancel (h : handle) (ts : list (handle * closure)) :
  timer h (cancel h ts) = None.
Proof.
  induction ts as [| [h' cb] ts IH]; [reflexivity|].
  cbn. destruct (Nat.eqb_spec h' h) as [-> | Hne]; cbn; [exact IH|].
  destruct (Nat.eqb_spec h h') as [-> | _]; [contradiction | exact IH].
Qed.

Lemma settle_clears (file : File) (h : handle) (o : outcome response)
    (m : machine) :
  In (IntervalCleared h) (settle_effects w file h o m).
Proof.
  unfold settle_effects. apply in_or_app. right. left. reflexivity.
Qed.

(** C5.  A submission of an accepted file starts one interval, which is in
    the timer table when [onDrop] reaches its await.  When the request
    settles, with either outcome and whether or not the callback then
    throws, the rest of [onDrop] clears that interval: it is gone from the
    timer table, the flag is off, no interval is left, and no later tick
    changes anything.  The clearing does not depend on the state [onDrop]
    is called or resumed in: on any machine its own interval is started at
    the call and is out of the table after the resumption. *)
Theorem interval_cleared_on_exit (evs : list event) (file : File)
    (rest : list File) (mid : list event) (o : outcome response)
    (hs : list handle) (m m' : machine) :
  let l0 := run_events w init evs in
  let h := next_handle (store l0) in
  let ldrop := step w l0 (Dropped (file :: rest)) in
  let lmid := run_events w ldrop mid in
  let l1 := run_events w l0 (submission file rest mid o) in
  uploading (store l0) = false ->
  accepted file = true ->
  forallb quiet mid = true ->
  timer h (timers (store ldrop)) = Some ProgressTick
  /\ (exists pre,
        trace (store ldrop) = trace (store l0) ++ pre
        /\ In (IntervalStarted h 200) pre)
  /\ (exists post,
        trace (store l1) = trace (store lmid) ++ post
        /\ In (IntervalCleared h) post)
  /\ timer h (timers (store l1)) = None
  /\ uploading (store l1) = false
  /\ timers (store l1) = []
  /\ run_events w l1 (map Tick hs) = l1
  /\ (exists k,
        resumption w (onDrop (file :: rest)) m = Some k
        /\ timer (next_handle m)
             (timers (snd (exec w (onDrop (file :: rest)) m)))
           = Some ProgressTick
        /\ fst (exec w (k o) m') = Finished (Ok tt)
        /\ timer (next_handle m) (timers (snd (exec w (k o) m'))) = None
        /\ uploading (snd (exec w (k o) m')) = false
        /\ In (IntervalCleared (next_handle m))
             (trace (snd (exec w (k o) m')))).
Proof.
  intros l0 h ldrop lmid l1 Hu Hacc Hq.
  pose proof (reachable_consistent evs init init_consistent) as Hc.
  fold l0 in Hc.
  destruct (consistent_not_uploading l0 Hc Hu) as (_ & _ & Htm & _).
  assert (Hdrop : store ldrop = dropped_machine file (store l0)).
  { subst ldrop. unfold step. rewrite Hu. unfold dispatch.
    destruct (exec_onDrop_accepted file rest (store l0) Hacc)
      as (k & _ & ->).
    reflexivity. }
  pose proof (in_flight_drop file rest l0 Hacc Hu Htm) as Hin0.
  fold ldrop in Hin0.
  destruct (in_flight_run _ _ _ mid _ _ Hin0 Hq) as (ticks & Hin).
  fold lmid in Hin.
  assert (Hl1 : l1 = {| store := settled_machine w file h o (store lmid);
                        waiting := None |}).
  { subst l1. unfold submission, run_events. cbn [fold_left].
    rewrite fold_left_app. cbn [fold_left].
    apply (step_settled _ _ _ _ _ o Hacc Hin). }
  pose proof (settled_idle file rest _ _ _ o Hin) as Hidle.
  fold h in Hidle. rewrite <- Hl1 in Hidle.
  destruct Hidle as (Hu1 & _ & Htm1 & _).
  split; [rewrite Hdrop; cbn; rewrite Nat.eqb_refl; reflexivity|].
  split.
  { exists (drop_effects file h). rewrite Hdrop. split; [reflexivity|].
    right. right. left. reflexivity. }
  split.
  { exists (settle_effects w file h o (store lmid)). rewrite Hl1.
    split; [reflexivity | apply settle_clears]. }
  split; [rewrite Htm1; reflexivity|].
  split; [exact Hu1|]. split; [exact Htm1|].
  split; [apply ticks_on_idle; exact Htm1|].
  destruct (exec_onDrop_accepted file rest m Hacc) as (k & Hk & Hexec).
  exists k. split; [exact Hk|].
  rewrite Hexec, (exec_resumption file rest m k o m' Hacc Hk).
  cbn [fst snd dropped_machine settled_machine timers uploading trace timer].
  rewrite Nat.eqb_refl, timer_cancel.
  repeat split. apply in_or_app. right. apply settle_clears.
Qed.

(** C2.  When the first dropped file has a type that does not start with
    [video/], [onDrop] finishes without reaching an await: its only effect
    is the failure notification, no request is sent, the uploading flag,
    the progress value, the [currentAnalysis] slot and the timer table are
    unchanged, and the event loop has nothing more to wait for than
    before. *)
Theorem non_video_rejected (file : File) (rest : list File) (m : machine)
    (l : loop) :
  accepted file = false ->
  let r := exec w (onDrop (file :: rest)) m in
  let l' := step w l (Dropped (file :: rest)) in
  fst r = Finished (Ok tt)
  /\ trace (snd r) = trace m ++ [Toast Failure "Please upload a video file"]
  /\ requests (trace (snd r)) = requests (trace m)
  /\ uploading (snd r) = uploading m
  /\ uploadProgress (snd r) = uploadProgress m
  /\ currentAnalysis (snd r) = currentAnalysis m
  /\ timers (snd r) = timers m
  /\ waiting l' = waiting l
  /\ uploading (store l') = uploading (store l).
Proof.
  intros Hacc r l'. subst r l'.
  rewrite (exec_onDrop_rejected file rest m Hacc). cbn [fst snd].
  assert (Hloop : waiting (step w l (Dropped (file :: rest))) = waiting l
                  /\ uploading (store (step w l (Dropped (file :: rest))))
                     = uploading (store l)).
  { unfold step, dispatch. destruct (uploading (store l)) eqn:Hup.
    - split; [reflexivity | exact Hup].
    - rewrite (exec_onDrop_rejected file rest _ Hacc). cbn.
      split; [reflexivity | exact Hup]. }
  unfold requests, emit. cbn [trace uploading uploadProgress currentAnalysis timers].
  rewrite flat_map_app. cbn [flat_map]. rewrite app_nil_r.
  repeat split; apply Hloop.
Qed.

(** C10.  With an empty list of accepted files [onDrop] returns at once
    and leaves the machine, trace included, as it was; the event loop is
    unchanged by such a drop. *)
Theorem empty_drop_no_effect (m : machine) (l : loop) :
  exec w (onDrop []) m = (Finished (Ok tt), m)
  /\ step w l (Dropped []) = l.
Proof.
  split; [reflexivity|].
  unfold step, dispatch. cbn. destruct l as [s k]; cbn.
  destruct (uploading s); reflexivity.
Qed.

End Controller.

(** X8.  In [App] the callback is [setCurrentAnalysis]: after a submission
    of an accepted file, whatever the outcome of the request, the slot
    holds what [analyzeVideo] resolved with, in place of what it held. *)
Lemma app_slot_holds_result (clk : nat -> Z) (evs : list event)
    (file : File) (rest : list File) (mid : list event)
    (o : outcome response) :
  let w := props clk in
  let l0 := run_events w init evs in
  let l1 := run_events w l0 (submission file rest mid o) in
  uploading (store l0) = false ->
  accepted file = true ->
  forallb quiet mid = true ->
  currentAnalysis (store l1) = Some (analysis_result w file o (store l0)).
Proof.
  intros w l0 l1 Hu Hacc Hq.
  pose proof (reachable_consistent w evs init (init_consistent w)) as Hc.
  destruct (submission_shape w l0 file rest mid o Hc Hu Hacc Hq)
    as (_ & _ & _ & _ & _ & _ & Hslot).
  exact Hslot.
Qed.

(** * The properties at concrete inputs *)

(** C1, as amended, at [pitch]: the server unreachable, a request timing
    out, a reply that is not JSON. *)
Lemma analyzeVideo_never_rejects_witness :
  unreachable (analyze_request pitch) = Err NetworkError
  /\ failed_request TimedOut = true
  /\ accepted_status 200 = true
  /\ (exists v,
        fst (run demo unreachable (analyzeVideo pitch) (store init)) = Ok v
        /\ get "filename" v = Some (Str "pitch.mp4")
        /\ get2 "analysis" "overall_score" v = Some (Num 78%Q))
  /\ (exists v,
        fst (run demo (served TimedOut) (analyzeVideo pitch) (store init))
        = Ok v
        /\ get "filename" v = Some (Str "pitch.mp4")
        /\ get2 "analysis" "overall_score" v = Some (Num 78%Q))
  /\ fst (run demo (served not_json) (analyzeVideo pitch) (store init))
     = Ok (Str "{not json").
Proof.
  destruct (analyzeVideo_never_rejects demo unreachable pitch (store init)
              TimedOut) as (_ & Hrejected & Hfailed & Htext).
  split; [reflexivity|]. split; [reflexivity|]. split; [reflexivity|].
  split; [exact (Hrejected NetworkError eq_refl)|].
  split; [exact (Hfailed eq_refl)|].
  exact (Htext 200 "{not json" eq_refl).
Defined.

(** C2 at [slide], dropped on the first render. *)
Lemma non_video_rejected_witness :
  accepted slide = false
  /\ fst (exec demo (onDrop [slide]) (store init)) = Finished (Ok tt)
  /\ trace (snd (exec demo (onDrop [slide]) (store init)))
     = [Toast Failure "Please upload a video file"]
  /\ requests (trace (snd (exec demo (onDrop [slide]) (store init)))) = []
  /\ currentAnalysis (snd (exec demo (onDrop [slide]) (store init))) = None
  /\ waiting (step demo init (Dropped [slide])) = None.
Proof.
  split; [reflexivity|].
  destruct (non_video_rejected demo slide [] (store init) init eq_refl)
    as (H1 & H2 & H3 & _ & _ & H6 & _ & H8 & _).
  exact (conj H1 (conj H2 (conj H3 (conj H6 H8)))).
Defined.

(** C3 at [pitch], with the server unreachable. *)
Lemma progress_profile_witness :
  uploading (store (run_events demo init [])) = false
  /\ accepted pitch = true
  /\ forallb quiet meanwhile = true
  /\ exists seg rising,
       trace (store (run_events demo init
                       (submission pitch [] meanwhile (Err NetworkError))))
       = seg
       /\ progress_values seg = (0 :: rising ++ [100]) ++ [0]
       /\ StronglySorted Z.le (0 :: rising ++ [100])
       /\ Forall (fun v => v <= 100) (progress_values seg)
       /\ progress_at_publication 0 seg = [100]
       /\ uploadProgress
            (store (run_events demo init
                      (submission pitch [] meanwhile (Err NetworkError)))) = 0
       /\ uploading
            (store (run_events demo init
                      (submission pitch [] meanwhile (Err NetworkError))))
          = false.
Proof.
  split; [reflexivity|]. split; [reflexivity|]. split; [reflexivity|].
  exact (progress_profile demo [] pitch [] meanwhile (Err NetworkError)
           eq_refl eq_refl eq_refl).
Defined.

(** C4 at [pitch], in [App]. *)
Lemma single_publication_witness :
  uploading (store (run_events demo init [])) = false
  /\ accepted pitch = true
  /\ forallb quiet meanwhile = true
  /\ callback_returns demo
       (analysis_result demo pitch (Err NetworkError) (store init))
       (store init) = true
  /\ exists seg,
       trace (store (run_events demo init
                       (submission pitch [] meanwhile (Err NetworkError))))
       = seg
       /\ publications seg
          = [mock_result pitch 1700000000000 1700000001000]
       /\ notifications Success seg = ["Video analyzed successfully!"]
       /\ navigations seg = ["/results"]
       /\ notifications Failure seg = [].
Proof.
  split; [reflexivity|]. split; [reflexivity|]. split; [reflexivity|].
  split; [reflexivity|].
  exact (single_publication demo [] pitch [] meanwhile (Err NetworkError)
           eq_refl eq_refl eq_refl eq_refl).
Defined.

(** C5 at [pitch], with a parent whose callback throws. *)
Lemma interval_cleared_on_exit_witness :
  uploading (store (run_events faulty init [])) = false
  /\ accepted pitch = true
  /\ forallb quiet meanwhile = true
  /\ timer 1%nat (timers (store (step faulty init (Dropped [pitch]))))
     = Some ProgressTick
  /\ (exists post,
        trace (store (run_events faulty init
                        (submission pitch [] meanwhile (Ok report))))
        = trace (store (run_events faulty
                          (step faulty init (Dropped [pitch])) meanwhile))
          ++ post
        /\ In (IntervalCleared 1%nat) post)
  /\ timers (store (run_events faulty init
                      (submission pitch [] meanwhile (Ok report)))) = []
  /\ uploading (store (run_events faulty init
                         (submission pitch [] meanwhile (Ok report))))
     = false.
Proof.
  destruct (interval_cleared_on_exit faulty [] pitch [] meanwhile (Ok report)
              [1%nat] (store init) (store init) eq_refl eq_refl eq_refl)
    as (Hstarted & _ & Hcleared & _ & Hflag & Htimers & _).
  split; [reflexivity|]. split; [reflexivity|]. split; [reflexivity|].
  exact (conj Hstarted (conj Hcleared (conj Htimers Hflag))).
Defined.

(** C7 at [pitch], the server answering with [report]. *)
Lemma server_body_published_unmodified_witness :
  uploading (store (run_events demo init [])) = false
  /\ accepted pitch = true
  /\ forallb quiet meanwhile = true
  /\ exists seg,
       trace (store (run_events demo init
                       (submission pitch [] meanwhile (Ok report))))
       = seg
       /\ publications seg = [data report]
       /\ map (get "created_at") (publications seg)
          = [Some (Str "2024-01-01T00:00:00.000Z")]
       /\ currentAnalysis
            (store (run_events demo init
                      (submission pitch [] meanwhile (Ok report))))
          = Some (data report).
Proof.
  split; [reflexivity|]. split; [reflexivity|]. split; [reflexivity|].
  exact (server_body_published_unmodified demo [] pitch [] meanwhile report
           eq_refl eq_refl eq_refl).
Defined.

(** C8, as amended, at [pitch]: a network error and a timeout. *)
Lemma fallback_fixed_up_to_clock_witness :
  unreachable (analyze_request pitch) = Err NetworkError
  /\ always_down 0%nat (analyze_request pitch) = Err (RequestTimeout timeout)
  /\ exists v1 v2,
       fst (run demo unreachable (analyzeVideo pitch) (store init)) = Ok v1
       /\ fst (run demo (always_down 0%nat) (analyzeVideo pitch) (store init))
          = Ok v2
       /\ get "filename" v1 = get "filename" v2
       /\ get "analysis" v1 = Some mock_analysis
       /\ get "analysis" v2 = Some mock_analysis
       /\ get "id" v1 = Some (Str "1700000000000")
       /\ get "created_at" v1 = Some (Str "2023-11-14T22:13:21.000Z")
       /\ (wall_clock 0 = wall_clock 0 -> wall_clock 1 = wall_clock 1 ->
           v1 = v2).
Proof.
  split; [reflexivity|]. split; [reflexivity|].
  exact (fallback_fixed_up_to_clock demo demo unreachable (always_down 0%nat)
           pitch (store init) (store init) NetworkError
           (RequestTimeout timeout) eq_refl eq_refl).
Defined.

(** C9 with every request timing out, three calls each. *)
Lemma history_and_health_absorb_failures_witness :
  (forall i, exists e, always_down i history_request = Err e)
  /\ (forall i, exists e, always_down i health_request = Err e)
  /\ successive demo always_down getAnalysisHistory 3 (store init)
     = [Ok (Arr []); Ok (Arr []); Ok (Arr [])]
  /\ successive demo always_down getHealthCheck 3 (store init)
     = [Ok unhealthy; Ok unhealthy; Ok unhealthy].
Proof.
  assert (Hdown : forall r i, exists e, always_down i r = Err e)
    by (intros r i; eexists; reflexivity).
  destruct (history_and_health_absorb_failures demo always_down 3 (store init))
    as (_ & _ & Hhistory & Hhealth).
  split; [exact (Hdown history_request)|].
  split; [exact (Hdown health_request)|].
  split; [exact (Hhistory (Hdown history_request))
         | exact (Hhealth (Hdown health_request))].
Defined.

(** * Further properties of the upload workflow *)

Section Frame.

Variable w : env.

Lemma routine_quiet (tr : list effect) :
  forallb routine tr = true ->
  publications tr = [] /\ navigations tr = []
  /\ notifications Success tr = [] /\ forallb calm tr = true.
Proof.
  induction tr as [| e tr IH]; cbn; [auto|].
  intros H. apply andb_prop in H as [He Ht].
  destruct (IH Ht) as (Hp & Hn & Hs & Hc).
  destruct e as [| | | | [] msg | | | | |]; try discriminate; cbn; auto.
  rewrite Hc. cbn in He. apply String.eqb_eq in He. subst msg. auto.
Qed.

Lemma tick_effects_routine (tr : list effect) :
  forallb tick_effect tr = true -> forallb routine tr = true.
Proof.
  induction tr as [| e tr IH]; cbn; [auto|].
  intros H. apply andb_prop in H as [He Ht]. rewrite (IH Ht).
  destruct e; try discriminate; reflexivity.
Qed.

(** What one event does to the trace and to the slot: either it adds
    routine effects and leaves the slot alone, or it is the settlement of
    the outstanding request and runs the rest of [onDrop]. *)
Lemma step_frame (l : loop) (ev : event) :
  consistent w l ->
  (exists added,
      trace (store (step w l ev)) = trace (store l) ++ added
      /\ forallb routine added = true
      /\ currentAnalysis (store (step w l ev)) = currentAnalysis (store l))
  \/ (exists file h o,
        ev = Settled o
        /\ store (step w l ev) = settled_machine w file h o (store l)).
Proof.
  intros [Hidle | (file & rest & m0 & ticks & Hacc & Hin)].
  - left. destruct Hidle as (Hu & Hp & Htm & Hw).
    destruct ev as [files | h | o].
    + destruct files as [| file rest].
      * exists []. unfold step. rewrite Hu. unfold dispatch. cbn.
        rewrite app_nil_r. auto.
      * destruct (accepted file) eqn:Hacc.
        -- exists (drop_effects file (next_handle (store l))).
           unfold step. rewrite Hu. unfold dispatch.
           destruct (exec_onDrop_accepted w file rest (store l) Hacc)
             as (k & _ & ->).
           cbn. auto.
        -- exists [Toast Failure "Please upload a video file"].
           unfold step. rewrite Hu. unfold dispatch.
           rewrite (exec_onDrop_rejected w file rest (store l) Hacc).
           cbn. auto.
    + exists []. unfold step. rewrite Htm. cbn. rewrite app_nil_r. auto.
    + exists []. unfold step. rewrite Hw. rewrite app_nil_r. auto.
  - destruct ev as [files | h | o].
    + left. exists []. unfold step. rewrite (proj1 (proj2 Hin)).
      rewrite app_nil_r. auto.
    + left. destruct (in_flight_quiet w _ _ _ _ _ (Tick h) Hin eq_refl)
        as (more & Hin').
      exists more.
      destruct Hin as (_ & _ & Hca & _ & _ & Htr & _).
      destruct Hin'
        as (_ & _ & Hca' & _ & _ & Htr' & _ & _ & _ & Hte' & _).
      rewrite forallb_app in Hte'. apply andb_prop in Hte' as [_ Hmore].
      rewrite Htr', Htr, Hca', Hca, <- !app_assoc.
      split; [reflexivity|]. split; [|reflexivity].
      apply tick_effects_routine, Hmore.
    + right. exists file, (next_handle m0), o. split; [reflexivity|].
      rewrite (step_settled w _ _ _ _ _ o Hacc Hin). reflexivity.
Qed.

(** X5.  In every reachable state a drop or a tick leaves the
    [currentAnalysis] slot and the publications made so far as they are:
    only the settlement of a request publishes. *)
Theorem slot_untouched_before_settlement (evs : list event)
    (files : list File) (h : handle) :
  let l := run_events w init evs in
  currentAnalysis (store (step w l (Dropped files)))
  = currentAnalysis (store l)
  /\ publications (trace (store (step w l (Dropped files))))
     = publications (trace (store l))
  /\ currentAnalysis (store (step w l (Tick h))) = currentAnalysis (store l)
  /\ publications (trace (store (step w l (Tick h))))
     = publications (trace (store l)).
Proof.
  intros l.
  pose proof (reachable_consistent w evs init (init_consistent w)) as Hc.
  fold l in Hc.
  assert (H : forall ev, quiet ev = true ->
            currentAnalysis (store (step w l ev)) = currentAnalysis (store l)
            /\ publications (trace (store (step w l ev)))
               = publications (trace (store l))).
  { intros ev Hq.
    destruct (step_frame l ev Hc)
      as [(added & Htr & Hr & Hslot) | (file & h' & o & -> & _)];
      [|discriminate].
    split; [exact Hslot|].
    rewrite Htr. unfold publications at 1. rewrite flat_map_app.
    fold (publications (trace (store l))). fold (publications added).
    rewrite (proj1 (routine_quiet added Hr)). apply app_nil_r. }
  destruct (H (Dropped files) eq_refl) as [H1 H2].
  destruct (H (Tick h) eq_refl) as [H3 H4].
  auto.
Qed.

Lemma tick_fires (l : loop) (h : handle) :
  timers (store l) = [(h, ProgressTick)] ->
  let p := uploadProgress (store l) in
  let l' := step w l (Tick h) in
  uploadProgress (store l') = (if 90 <=? p then 90 else p + 10)
  /\ timers (store l') = (if 90 <=? p then [] else [(h, ProgressTick)])
  /\ uploading (store l') = uploading (store l).
Proof.
  intros Htm p l'. subst p l'. unfold step. rewrite Htm. cbn [timer].
  rewrite Nat.eqb_refl. unfold dispatch. cbn.
  destruct (90 <=? uploadProgress (store l)); cbn; rewrite ?Htm; cbn;
    rewrite ?Nat.eqb_refl; auto.
Qed.

Lemma ticks_after_drop (l : loop) (h : handle) (n : nat) :
  timers (store l) = [(h, ProgressTick)] ->
  uploadProgress (store l) = 0 ->
  let l' := run_events w l (map Tick (repeat h n)) in
  uploadProgress (store l') = Z.min (10 * Z.of_nat n) 90
  /\ timers (store l')
     = (if (n <? 10)%nat then [(h, ProgressTick)] else [])
  /\ uploading (store l') = uploading (store l).
Proof.
  intros Htm Hp. induction n as [| n IH].
  - cbn. rewrite Hp, Htm. auto.
  - cbn zeta in *. change (repeat h (S n)) with (h :: repeat h n).
    rewrite repeat_cons, map_app.
    unfold run_events in *. rewrite fold_left_app. cbn [map fold_left].
    set (l1 := fold_left (step w) (map Tick (repeat h n)) l) in *.
    destruct IH as (IHp & IHt & IHu).
    destruct (Nat.ltb_spec n 10) as [Hlt | Hge].
    + destruct (tick_fires l1 h IHt) as (Hp' & Ht' & Hu').
      rewrite Hp', Ht', Hu', IHp, IHu.
      destruct (Z.leb_spec 90 (Z.min (10 * Z.of_nat n) 90)) as [H90 | H90];
        destruct (Nat.ltb_spec (S n) 10); repeat split; try lia.
    + assert (Hsame : step w l1 (Tick h) = l1)
        by (unfold step; rewrite IHt; reflexivity).
      rewrite Hsame, IHp, IHt, IHu.
      destruct (Nat.ltb_spec (S n) 10); repeat split; lia.
Qed.

(** X2.  After an accepted drop and [n] ticks of the interval it started
    the progress value is [min (10 n) 90]; the interval is still active
    before its tenth tick and has cleared itself from the tenth on; the
    flag stays on. *)
Theorem progress_after_ticks (evs : list event) (file : File)
    (rest : list File) (n : nat) :
  let l0 := run_events w init evs in
  let h := next_handle (store l0) in
  let l := run_events w l0 (drop_and_ticks file rest h n) in
  uploading (store l0) = false ->
  accepted file = true ->
  uploadProgress (store l) = Z.min (10 * Z.of_nat n) 90
  /\ timers (store l) = (if (n <? 10)%nat then [(h, ProgressTick)] else [])
  /\ uploading (store l) = true.
Proof.
  intros l0 h l Hu Hacc.
  pose proof (reachable_consistent w evs init (init_consistent w)) as Hc.
  fold l0 in Hc.
  destruct (consistent_not_uploading w l0 Hc Hu) as (_ & _ & Htm & _).
  subst l. unfold drop_and_ticks, run_events. cbn [fold_left].
  set (l1 := step w l0 (Dropped (file :: rest))).
  assert (Hl1 : timers (store l1) = [(h, ProgressTick)]
                /\ uploadProgress (store l1) = 0
                /\ uploading (store l1) = true).
  { subst l1. unfold step. rewrite Hu. unfold dispatch.
    destruct (exec_onDrop_accepted w file rest (store l0) Hacc)
      as (k & _ & ->).
    cbn. rewrite Htm. auto. }
  destruct Hl1 as (Ht1 & Hp1 & Hu1).
  destruct (ticks_after_drop l1 h n Ht1 Hp1) as (Hp & Ht & Hup).
  unfold run_events in *. rewrite Hp, Ht, Hup. auto.
Qed.

Lemma requests_app (a b : list effect) :
  requests (a ++ b) = requests a ++ requests b.
Proof. apply flat_map_app. Qed.

Lemma settle_sends_nothing (file : File) (h : handle)
    (o : outcome response) (m : machine) :
  requests (settle_effects w file h o m) = [].
Proof.
  unfold settle_effects.
  destruct o; destruct (fst (onAnalysisComplete_prop w _ _)); reflexivity.
Qed.

Lemma ticks_are_quiet (hs : list handle) :
  forallb quiet (map Tick hs) = true.
Proof. induction hs as [| h hs IH]; [reflexivity | exact IH]. Qed.

(** X3.  A call of [onDrop] with an accepted file, in whatever state,
    sends exactly one request before its await, the POST of that file;
    resumed on any machine with either outcome, the rest of [onDrop]
    finishes without sending another: nothing is retried.  In the event
    loop a submission with any ticks meanwhile has sent exactly that one
    request when it is over. *)
Theorem one_request_per_submission (evs : list event) (file : File)
    (rest : list File) (hs : list handle) (o : outcome response)
    (m m' : machine) :
  let l0 := run_events w init evs in
  let l1 := run_events w l0 (submission file rest (map Tick hs) o) in
  uploading (store l0) = false ->
  accepted file = true ->
  (exists k,
      exec w (onDrop (file :: rest)) m
      = (Blocked (analyze_request file) k, dropped_machine file m)
      /\ requests (trace (dropped_machine file m))
         = requests (trace m) ++ [analyze_request file]
      /\ fst (exec w (k o) m') = Finished (Ok tt)
      /\ requests (trace (snd (exec w (k o) m'))) = requests (trace m'))
  /\ requests (trace (store l1))
     = requests (trace (store l0)) ++ [analyze_request file].
Proof.
  intros l0 l1 Hu Hacc. split.
  - destruct (exec_onDrop_accepted w file rest m Hacc) as (k & Hk & Hexec).
    exists k. split; [exact Hexec|].
    rewrite (exec_resumption w file rest m k o m' Hacc Hk).
    cbn [fst snd dropped_machine settled_machine trace].
    rewrite !requests_app, settle_sends_nothing, app_nil_r.
    repeat split.
  - pose proof (reachable_consistent w evs init (init_consistent w)) as Hc.
    destruct (submission_shape w l0 file rest (map Tick hs) o Hc Hu Hacc
                (ticks_are_quiet hs))
      as (ticks & Htr & Hte & _).
    fold l0 l1 in Htr. rewrite Htr, !requests_app, settle_sends_nothing.
    destruct (ticks_silent ticks Hte) as (_ & _ & -> & _).
    reflexivity.
Qed.


End Frame.

(** * Properties of [App] as a whole *)

Lemma app_settle_calm (clk : nat -> Z) (file : File) (h : handle)
    (o : outcome response) (m : machine) :
  forallb calm (settle_effects (props clk) file h o m) = true
  /\ publications (settle_effects (props clk) file h o m)
     = [analysis_result (props clk) file o m].
Proof. destruct o; split; reflexivity. Qed.

(** X6.  In [App], whatever the events, the trace never holds the
    failure notification of [onDrop]'s handler nor an unhandled rejection:
    with [setCurrentAnalysis] as the callback the handler is never
    entered. *)
Theorem app_never_reports_failure (clk : nat -> Z) (evs : list event) :
  forallb calm (trace (store (run_events (props clk) init evs))) = true.
Proof.
  assert (H : forall l, consistent (props clk) l ->
            forallb calm (trace (store l)) = true ->
            forallb calm (trace (store (run_events (props clk) l evs))) = true).
  { induction evs as [| ev evs IH]; intros l Hc Hl; [exact Hl|].
    cbn. apply IH; [apply step_consistent, Hc|].
    destruct (step_frame (props clk) l ev Hc)
      as [(added & -> & Hr & _) | (file & h & o & _ & ->)].
    - rewrite forallb_app, Hl. apply (routine_quiet added Hr).
    - cbn [settled_machine trace]. rewrite forallb_app, Hl.
      apply app_settle_calm. }
  apply H; [apply init_consistent | reflexivity].
Qed.

(** * Further properties of the API module *)

(** X9.  Each of [analyzeVideo], [getAnalysisHistory] and [getHealthCheck]
    sends exactly one request per call, whatever the outcome, and leaves
    the React state and the timer table as they are. *)
Theorem api_calls_send_one_request (w : env)
    (server : request -> outcome response) (file : File) (m : machine) :
  let react (x : machine) :=
    (uploading x, uploadProgress x, currentAnalysis x, timers x) in
  let a := snd (run w server (analyzeVideo file) m) in
  let h := snd (run w server getAnalysisHistory m) in
  let c := snd (run w server getHealthCheck m) in
  requests (trace a) = requests (trace m) ++ [analyze_request file]
  /\ requests (trace h) = requests (trace m) ++ [history_request]
  /\ requests (trace c) = requests (trace m) ++ [health_request]
  /\ react a = react m /\ react h = react m /\ react c = react m.
Proof.
  intros react a h c. subst react a h c. cbv beta.
  rewrite run_analyzeVideo, run_getAnalysisHistory, run_getHealthCheck.
  destruct (server (analyze_request file));
    destruct (server history_request);
    destruct (server health_request);
    cbn; rewrite ?requests_app; cbn; rewrite ?app_nil_r; auto 10.
Qed.

(** * Properties of the views *)

Lemma or_else_zero (v : option value) :
  truthy (or_else v (Some (Num 0%Q))) = true
  \/ or_else v (Some (Num 0%Q)) = Some (Num 0%Q).
Proof. unfold or_else. destruct (truthy v) eqn:Hv; auto. Qed.

Lemma member_truthy (k : string) (v : option value) :
  truthy v = true -> exists r, member k v = Ok r.
Proof. destruct v as [[]|]; try discriminate; intros _; eexists; reflexivity. Qed.

Lemma member_of_truthy (k : string) (record : value) :
  truthy (Some record) = true -> member k (Some record) = Ok (get k record).
Proof. destruct record; try discriminate; reflexivity. Qed.

Lemma optional_member_get2 (k : string) (record : value) :
  optional_member k (get "analysis" record) = get2 "analysis" k record.
Proof.
  unfold get2. destruct (get "analysis" record) as [[]|]; reflexivity.
Qed.

(** X10.  The dashboard with the statistics grid evaluates without
    throwing for every value of the slot.  With a truthy slot it includes
    the results link and the three score cards; each card shows the score
    of the record when that score is truthy and [N/A] otherwise, so what
    it shows is always truthy, and a score that is 0, [null] or missing,
    or an [analysis] that is [null] or missing, shows [N/A].  With a falsy
    slot both guarded expressions yield the slot value itself. *)
Theorem dashboard_stats_total (currentAnalysis : option value) (k : string) :
  match currentAnalysis with
  | Some record =>
      if truthy currentAnalysis then
        DashboardStats.Dashboard currentAnalysis
        = Ok {| results_link := Shown "/results";
                latest :=
                  Shown
                    [("Overall Score",
                      score_or (Str "N/A") "overall_score" record);
                     ("Confidence",
                      score_or (Str "N/A") "confidence_level" record);
                     ("Speech Clarity",
                      score_or (Str "N/A") "speech_clarity" record)] |}
        /\ truthy (score_or (Str "N/A") k record) = true
      else
        DashboardStats.Dashboard currentAnalysis
        = Ok {| results_link := Skipped currentAnalysis;
                latest := Skipped currentAnalysis |}
  | None =>
      DashboardStats.Dashboard None
      = Ok {| results_link := Skipped None; latest := Skipped None |}
  end
  /\ score_or (Str "N/A") k (Obj [("analysis", Obj [(k, Num 0%Q)])])
     = Some (Str "N/A")
  /\ score_or (Str "N/A") k (Obj [("analysis", Obj [(k, Null)])])
     = Some (Str "N/A")
  /\ score_or (Str "N/A") k (Obj [("analysis", Obj [])])
     = Some (Str "N/A")
  /\ score_or (Str "N/A") k (Obj [("analysis", Null)]) = Some (Str "N/A")
  /\ score_or (Str "N/A") k (Obj []) = Some (Str "N/A").
Proof.
  split.
  - destruct currentAnalysis as [record|]; [|reflexivity].
    destruct (truthy (Some record)) eqn:Ht.
    + split.
      * unfold DashboardStats.Dashboard, and_then. rewrite Ht.
        rewrite (member_of_truthy "analysis" record Ht). cbn [obind].
        unfold or_else, score_or. rewrite !optional_member_get2.
        reflexivity.
      * unfold score_or.
        destruct (truthy (get2 "analysis" k record)) eqn:Hs;
          [exact Hs | reflexivity].
    + unfold DashboardStats.Dashboard, and_then. rewrite Ht. reflexivity.
  - unfold score_or, get2. cbn. rewrite String.eqb_refl. repeat split.
Qed.

(** X11.  The dashboard with the welcome section evaluates without
    throwing for every value of the slot.  With a truthy slot it shows the
    three score cards, each a truthy value or the number 0; with a falsy
    slot the guarded expression yields the slot value itself. *)
Theorem dashboard_welcome_total (currentAnalysis : option value) :
  if truthy currentAnalysis then
    exists cards,
      DashboardWelcome.Dashboard currentAnalysis = Ok (Shown cards)
      /\ map fst cards = ["Overall Score"; "Confidence"; "Engagement"]
      /\ Forall (fun c => truthy (snd c) = true \/ snd c = Some (Num 0%Q))
           cards
  else
    DashboardWelcome.Dashboard currentAnalysis
    = Ok (Skipped currentAnalysis).
Proof.
  unfold DashboardWelcome.Dashboard, and_then.
  destruct (truthy currentAnalysis) eqn:Ht; [|reflexivity].
  destruct (member_truthy "analysis" currentAnalysis Ht) as [a ->].
  cbn. eexists. split; [reflexivity|]. split; [reflexivity|].
  repeat (constructor; [apply or_else_zero|]). constructor.
Qed.

Lemma threshold_mono (t q1 q2 : Q) :
  (q1 <= q2)%Q -> Qle_bool t q1 = true -> Qle_bool t q2 = true.
Proof.
  intros H12 H1. apply Qle_bool_iff. apply Qle_bool_iff in H1.
  eapply Qle_trans; eassumption.
Qed.

(** X12.  The caption of the overall score is monotone in a numeric
    score: a higher score never gets a worse caption. *)
Theorem verdict_monotone (q1 q2 : Q) :
  (q1 <= q2)%Q ->
  (AnalysisResults.verdict_rank (AnalysisResults.verdict q1)
   <= AnalysisResults.verdict_rank (AnalysisResults.verdict q2))%nat.
Proof.
  intros H.
  pose proof (threshold_mono 80 q1 q2 H) as H80.
  pose proof (threshold_mono 70 q1 q2 H) as H70.
  pose proof (threshold_mono 60 q1 q2 H) as H60.
  unfold AnalysisResults.verdict.
  destruct (Qle_bool 80 q1); destruct (Qle_bool 80 q2);
    destruct (Qle_bool 70 q1); destruct (Qle_bool 70 q2);
    destruct (Qle_bool 60 q1); destruct (Qle_bool 60 q2);
    try (specialize (H80 eq_refl); discriminate);
    try (specialize (H70 eq_refl); discriminate);
    try (specialize (H60 eq_refl); discriminate);
    cbn; lia.
Qed.

(** X13.  [Navigation] highlights a link exactly when the path name
    equals its target: one link when the path name is one of the three
    targets, none otherwise. *)
Theorem navigation_one_highlight (pathname : string) :
  let links := Navigation.Navigation pathname in
  length (filter Navigation.highlighted links)
  = (if existsb (String.eqb pathname) ["/"; "/upload"; "/results"]
     then 1%nat else 0%nat)
  /\ forallb (fun l => Bool.eqb (Navigation.highlighted l)
                         (String.eqb pathname (Navigation.to l)))
       links = true.
Proof.
  intros links. subst links.
  unfold Navigation.Navigation, Navigation.isActive.
  cbn [existsb forallb filter Navigation.to Navigation.highlighted
       Navigation.className].
  destruct (String.eqb pathname "/") eqn:H1;
    [apply String.eqb_eq in H1; subst; split; reflexivity|].
  destruct (String.eqb pathname "/upload") eqn:H2;
    [apply String.eqb_eq in H2; subst; split; reflexivity|].
  destruct (String.eqb pathname "/results") eqn:H3;
    [apply String.eqb_eq in H3; subst; split; reflexivity|].
  split; reflexivity.
Qed.

(** * The further properties at concrete inputs *)

(** X2 at [pitch], twelve ticks after the drop. *)
Lemma progress_after_ticks_witness :
  uploading (store (run_events demo init [])) = false
  /\ accepted pitch = true
  /\ uploadProgress
       (store (run_events demo init (drop_and_ticks pitch [] 1%nat 12))) = 90
  /\ timers (store (run_events demo init (drop_and_ticks pitch [] 1%nat 12)))
     = []
  /\ uploading
       (store (run_events demo init (drop_and_ticks pitch [] 1%nat 12)))
     = true.
Proof.
  split; [reflexivity|]. split; [reflexivity|].
  exact (progress_after_ticks demo [] pitch [] 12 eq_refl eq_refl).
Defined.

(** X3 at [pitch]: called on the first render, resumed with [report]. *)
Lemma one_request_per_submission_witness :
  uploading (store (run_events demo init [])) = false
  /\ accepted pitch = true
  /\ (exists k,
        exec demo (onDrop [pitch]) (store init)
        = (Blocked (analyze_request pitch) k,
           dropped_machine pitch (store init))
        /\ requests (trace (dropped_machine pitch (store init)))
           = [analyze_request pitch]
        /\ fst (exec demo (k (Ok report)) (store init)) = Finished (Ok tt)
        /\ requests (trace (snd (exec demo (k (Ok report)) (store init))))
           = [])
  /\ requests
       (trace (store (run_events demo init
                        (submission pitch [] (map Tick [1%nat; 1%nat; 7%nat])
                           (Ok report)))))
     = [analyze_request pitch].
Proof.
  split; [reflexivity|]. split; [reflexivity|].
  exact (one_request_per_submission demo [] pitch []
           [1%nat; 1%nat; 7%nat] (Ok report) (store init) (store init)
           eq_refl eq_refl).
Defined.


(** X8 at [pitch], with the server unreachable. *)
Lemma app_slot_holds_result_witness :
  uploading (store (run_events demo init [])) = false
  /\ accepted pitch = true
  /\ forallb quiet meanwhile = true
  /\ currentAnalysis
       (store (run_events demo init
                 (submission pitch [] meanwhile (Err NetworkError))))
     = Some (mock_result pitch 1700000000000 1700000001000).
Proof.
  split; [reflexivity|]. split; [reflexivity|]. split; [reflexivity|].
  exact (app_slot_holds_result wall_clock [] pitch [] meanwhile
           (Err NetworkError) eq_refl eq_refl eq_refl).
Defined.

(** X12 at the scores 65 and 78. *)
Lemma verdict_monotone_witness :
  (65 <= 78)%Q
  /\ (AnalysisResults.verdict_rank (AnalysisResults.verdict 65)
      <= AnalysisResults.verdict_rank (AnalysisResults.verdict 78))%nat.
Proof.
  assert (H : (65 <= 78)%Q) by (unfold Qle; cbn; lia).
  exact (conj H (verdict_monotone 65 78 H)).
Defined.
